(** * Semi-supervised learning: the VAT regulariser and the training launcher

    A shallow embedding of [semilearn/algorithms/vat/vat.py] and [train.py].

    Conventions.
    - Python [int] is [Z].  Tensor entries and torch scalars are modelled by
      exact reals [R]; the single Python [float] expression whose rounding
      matters (the warm-up coefficient) is also given in binary64.
    - A call that may raise returns an [outcome]; code that threads state
      (the [args] namespace, the file system, the network's gradient
      buffers) is written in a state-and-exception monad.
    - Collaborators that live outside the two files (the network, autograd,
      datasets, the checkpoint reader) are fields of an interface record. *)

From Stdlib Require Import String Ascii.
From Stdlib Require Import ZArith List Bool Lia.
From Stdlib Require Import DecimalString.
From Stdlib Require Import Reals Lra.
From Stdlib Require Floats Uint63.
From Stdlib Require QArith_base.
Import ListNotations.

Set Implicit Arguments.

(* ===================================================================== *)
(** ** Python outcomes and a state-and-exception monad *)
(* ===================================================================== *)

Module Py.

Inductive exn : Type :=
| AssertionError (msg : string)
| ZeroDivisionError
| KeyError (key : string)
| TypeError
| AttributeError
| Exception (msg : string).

Inductive outcome (A : Type) : Type :=
| Returned (a : A)
| Raised (e : exn).

Arguments Returned {A} a.
Arguments Raised {A} e.

(** A computation over a mutable store [S]: what it returns or raises, and
    the store it leaves behind (mutations made before a raise persist). *)
Definition M (S A : Type) : Type := S -> outcome A * S.

Definition ret {S A} (a : A) : M S A := fun s => (Returned a, s).

Definition raise {S A} (e : exn) : M S A := fun s => (Raised e, s).

Definition bind {S A B} (m : M S A) (k : A -> M S B) : M S B :=
  fun s =>
    match m s with
    | (Returned a, s') => k a s'
    | (Raised e, s') => (Raised e, s')
    end.

Definition get {S} : M S S := fun s => (Returned s, s).

Definition modify {S} (f : S -> S) : M S unit := fun s => (Returned tt, f s).

Definition lift {S A} (o : outcome A) : M S A := fun s => (o, s).

(** [try: body except: handler] with a bare [except], which catches every
    exception. *)
Definition try_except {S A} (body : M S A) (handler : M S A) : M S A :=
  fun s =>
    match body s with
    | (Returned a, s') => (Returned a, s')
    | (Raised _, s') => handler s'
    end.

Definition when {S} (c : bool) (m : M S unit) : M S unit :=
  if c then m else ret tt.

Module Notations.
Declare Scope py_scope.
Delimit Scope py_scope with py.
Notation "x <- m ;; k" := (bind m (fun x => k))
  (at level 61, m at next level, right associativity) : py_scope.
Notation "m ;; k" := (bind m (fun _ => k))
  (at level 61, right associativity) : py_scope.
End Notations.

End Py.
Import Py.

(* ===================================================================== *)
(** ** Python floats *)
(* ===================================================================== *)

Module Float64.

Import Floats Uint63.
Local Open Scope float_scope.

(** [float(z)] for an int [0 <= z < 2^63] (exact below 2^53). *)
Definition of_int (z : Z) : float := PrimFloat.of_uint63 (Uint63.of_Z z).

Definition zero : float := 0.

Definition one : float := 1.

Definition half : float := 0.5.

(** The literal [0.4]: the binary64 number nearest to 4/10. *)
Definition lit_0_4 : float := 0x1.999999999999ap-2.

(** [np.maximum] and [np.minimum] hand a NaN on. *)
Definition np_maximum (a b : float) : float :=
  if PrimFloat.is_nan a then a
  else if PrimFloat.is_nan b then b
  else if PrimFloat.ltb a b then b else a.

Definition np_minimum (a b : float) : float :=
  if PrimFloat.is_nan a then a
  else if PrimFloat.is_nan b then b
  else if PrimFloat.ltb b a then b else a.

Definition np_clip (x a_min a_max : float) : float :=
  np_minimum (np_maximum x a_min) a_max.

End Float64.

(* ===================================================================== *)
(** ** Dense arrays *)
(* ===================================================================== *)

Module Tensor.

Local Open Scope R_scope.

(** A contiguous row-major array: [shape] as numpy reports it, [data] the
    entries in storage order. *)
Record tensor : Type := mk_tensor { shape : list nat; data : list R }.

Definition numel (s : list nat) : nat := fold_right Nat.mul 1%nat s.

Definition wf (t : tensor) : Prop := length (data t) = numel (shape t).

Definition rank (t : tensor) : nat := length (shape t).

(** Size of axis 0 and number of entries of one slice along axis 0. *)
Definition batch (t : tensor) : nat := hd 1%nat (shape t).

Definition example_size (t : tensor) : nat := numel (tl (shape t)).

Fixpoint chunks (c n : nat) (l : list R) : list (list R) :=
  match n with
  | O => []
  | S n' => firstn c l :: chunks c n' (skipn c l)
  end.

(** The slices [t[i]], [i < batch t], each flattened. *)
Definition examples (t : tensor) : list (list R) :=
  chunks (example_size t) (batch t) (data t).

Definition example (i : nat) (t : tensor) : list R :=
  nth i (examples t) [].

Definition rsum (l : list R) : R := fold_right Rplus 0 l.

Definition sq (x : R) : R := x * x.

(** [np.sqrt(np.sum(v ** 2))] of one flattened slice. *)
Definition l2norm (v : list R) : R := sqrt (rsum (map sq v)).

(** [k * t] for a scalar [k]. *)
Definition scale (k : R) (t : tensor) : tensor :=
  mk_tensor (shape t) (map (Rmult k) (data t)).

Fixpoint zip_with (f : R -> R -> R) (a b : list R) : list R :=
  match a, b with
  | x :: a', y :: b' => f x y :: zip_with f a' b'
  | _, _ => []
  end.

(** [a + b]; the callers only add arrays of one shape (the perturbation is
    created with the size of its target), so broadcasting is left out. *)
Definition add (a b : tensor) : tensor :=
  mk_tensor (shape a) (zip_with Rplus (data a) (data b)).

(** A [batch, classes] array of logits or probabilities, as its rows. *)
Definition matrix : Type := list (list R).

Fixpoint mul (a b : matrix) : matrix :=
  match a, b with
  | r :: a', r' :: b' => zip_with Rmult r r' :: mul a' b'
  | _, _ => []
  end.

(** [m.sum(dim=1)] and [v.mean(dim=0)]. *)
Definition sum_dim1 (m : matrix) : list R := map rsum m.

Definition mean_dim0 (v : list R) : R := rsum v / INR (length v).


End Tensor.
Import Tensor.

(* ===================================================================== *)
(** ** vat.py *)
(* ===================================================================== *)

Module VAT.

Import Py.Notations.
Local Open Scope R_scope.

(** *** Numerical helpers *)

(** The additive guard of [_l2_normalize]. *)
Definition guard : R := 1e-16.

(** [d /= (np.sqrt(np.sum(d ** 2, axis=(1, ..., k))).reshape((-1, 1, ..., 1)) + 1e-16)]:
    every slice along axis 0 is divided by its own norm plus the guard. *)
Definition div_by_norm (v : list R) : list R :=
  map (fun x => x / (l2norm v + guard)) v.

Definition normalize_over_nonbatch (d : tensor) : tensor :=
  mk_tensor (shape d) (concat (map div_by_norm (examples d))).

(** [VAT._l2_normalize].  Nothing in the body raises. *)
Definition _l2_normalize (d : tensor) : outcome tensor :=
  let d :=
    if Nat.eqb (length (shape d)) 4 then normalize_over_nonbatch d
    else if Nat.eqb (length (shape d)) 3 then normalize_over_nonbatch d
    else d in
  Returned d.

(** [F.softmax(x, dim=1)] and [F.log_softmax(x, dim=1)]. *)
Definition softmax_row (x : list R) : list R :=
  map (fun xi => exp xi / rsum (map exp x)) x.

Definition log_softmax_row (x : list R) : list R :=
  map (fun xi => xi - ln (rsum (map exp x))) x.

Definition softmax (x : matrix) : matrix := map softmax_row x.

Definition log_softmax (x : matrix) : matrix := map log_softmax_row x.

(** [VAT.kl_div_with_logit]. *)
Definition kl_div_with_logit (q_logit p_logit : matrix) : R :=
  let q := softmax q_logit in
  let logq := log_softmax q_logit in
  let logp := log_softmax p_logit in
  let qlogq := mean_dim0 (sum_dim1 (mul q logq)) in
  let qlogp := mean_dim0 (sum_dim1 (mul q logp)) in
  qlogq - qlogp.

(** [VAT.entropy_loss]. *)
Definition entropy_loss (ul_y : matrix) : R :=
  let p := softmax ul_y in
  - mean_dim0 (sum_dim1 (mul p (log_softmax ul_y))).

(** [np.clip(x, a_min, a_max)] is [minimum(maximum(x, a_min), a_max)]. *)
Definition np_clip (x a_min a_max : R) : R := Rmin (Rmax x a_min) a_max.

(** Python's [/] with a float divisor. *)
Definition truediv (a b : R) : outcome R :=
  if Req_dec_T b 0 then Raised ZeroDivisionError else Returned (a / b).

(** The warm-up coefficient of [train_step]:
    [np.clip(self.it / (self.unsup_warm_up * self.num_train_iter), a_min=0.0, a_max=1.0)]. *)
Definition unsup_warmup_coef (it : Z) (unsup_warm_up : R) (num_train_iter : Z)
  : outcome R :=
  match truediv (IZR it) (unsup_warm_up * IZR num_train_iter) with
  | Returned q => Returned (np_clip q 0 1)
  | Raised e => Raised e
  end.

(** The same line in binary64, the arithmetic Python runs it in: [it] and
    [num_train_iter] are converted to [float], the product and the quotient
    are rounded to nearest, and a zero divisor raises. *)
Definition unsup_warmup_coef_f64 (it : Z) (unsup_warm_up : PrimFloat.float)
  (num_train_iter : Z) : outcome PrimFloat.float :=
  let den := PrimFloat.mul unsup_warm_up (Float64.of_int num_train_iter) in
  if PrimFloat.eqb den Float64.zero then Raised ZeroDivisionError
  else Returned (Float64.np_clip (PrimFloat.div (Float64.of_int it) den)
                   Float64.zero Float64.one).

(** *** The algorithm object and the capabilities it calls into *)

(** What [self.model] is called with: an image or audio array, the
    tokenizer's dict, or a dict that carries [inputs_embeds]. *)
Inductive input : Type :=
| Dense (x : tensor)
| Tokens (attention_mask input_ids : tensor)
| Embeds (attention_mask inputs_embeds : tensor).

Section Algorithm.

(** Parameters of the network and their accumulated [.grad] buffers. *)
Variables W G : Type.

Record vat : Type := mk_vat {
  it : Z;
  num_train_iter : Z;
  unsup_warm_up : R;
  vat_eps : R;
  vat_embed : bool;
  lambda_u : R;
  lambda_ent : R;
  weights : W;
  grads : G;
  bn_frozen : bool;
  rng : nat
}.

(** The differentiable model, autograd, the random generator, [ce_loss] and
    [AlgorithmBase.parameter_update]: none of them is defined in vat.py.
    [grad_input f d] is [d.grad] after [f(d).backward()] on a fresh leaf [d];
    [grad_weights f w] is what the same call adds to the parameters' [.grad]. *)
Record capability : Type := mk_capability {
  forward : W -> bool -> input -> matrix;
  forward_embed : W -> bool -> input -> tensor * matrix;
  grad_input : (tensor -> R) -> tensor -> tensor;
  grad_weights : (W -> R) -> W -> G;
  gzero : G;
  gadd : G -> G -> G;
  normal_ : nat -> list nat -> tensor;
  ce_loss : matrix -> list Z -> R;
  parameter_update : R -> vat -> vat
}.

Variable C : capability.

Definition set_grads (g : G) (s : vat) : vat :=
  mk_vat (it s) (num_train_iter s) (unsup_warm_up s) (vat_eps s) (vat_embed s)
         (lambda_u s) (lambda_ent s) (weights s) g (bn_frozen s) (rng s).

Definition set_bn_frozen (b : bool) (s : vat) : vat :=
  mk_vat (it s) (num_train_iter s) (unsup_warm_up s) (vat_eps s) (vat_embed s)
         (lambda_u s) (lambda_ent s) (weights s) (grads s) b (rng s).

Definition set_rng (n : nat) (s : vat) : vat :=
  mk_vat (it s) (num_train_iter s) (unsup_warm_up s) (vat_eps s) (vat_embed s)
         (lambda_u s) (lambda_ent s) (weights s) (grads s) (bn_frozen s) n.

(** [self.bn_controller.freeze_bn(self.model)] and [unfreeze_bn]. *)
Definition freeze_bn : M vat unit := modify (set_bn_frozen true).

Definition unfreeze_bn : M vat unit := modify (set_bn_frozen false).

(** [model.zero_grad()]. *)
Definition zero_grad : M vat unit := modify (set_grads (gzero C)).

(** [torch.Tensor(size).normal_()]. *)
Definition draw_normal (size : list nat) : M vat tensor :=
  fun s => (Returned (normal_ C (rng s) size), set_rng (S (rng s)) s).

(** [x.size()]: a dict has no such attribute. *)
Definition size_of (x : input) : outcome (list nat) :=
  match x with
  | Dense t => Returned (shape t)
  | _ => Raised AttributeError
  end.

Definition size_of_embed (e : option tensor) : outcome (list nat) :=
  match e with
  | Some t => Returned (shape t)
  | None => Raised AttributeError
  end.

(** The argument of the probing call as a function of the perturbation:
    [{'attention_mask': ul_x['attention_mask'], 'inputs_embeds': ul_x_embed + d}]
    or [ul_x + d]. *)
Definition perturbed (vat_embed : bool) (ul_x : input) (ul_x_embed : option tensor)
  : outcome (tensor -> input) :=
  if vat_embed then
    match ul_x, ul_x_embed with
    | Dense _, _ => Raised TypeError
    | _, None => Raised AttributeError
    | Tokens m _, Some e => Returned (fun d => Embeds m (add e d))
    | Embeds m _, Some e => Returned (fun d => Embeds m (add e d))
    end
  else
    match ul_x with
    | Dense x => Returned (fun d => Dense (add x d))
    | _ => Raised TypeError
    end.

Local Open Scope py_scope.

(** One pass through the body of [for i in range(num_iters)]. *)
Definition power_round (ul_x : input) (ul_y : matrix) (xi : R)
  (ul_x_embed : option tensor) (vat_embed : bool) (d : tensor) : M vat tensor :=
  n <- lift (_l2_normalize d) ;;
  let d := scale xi n in
  at_ <- lift (perturbed vat_embed ul_x ul_x_embed) ;;
  s <- get ;;
  let y_hat := forward C (weights s) (bn_frozen s) (at_ d) in
  let delta_kl := kl_div_with_logit ul_y y_hat in
  (* delta_kl.backward() *)
  let d_grad :=
    grad_input C (fun d0 => kl_div_with_logit ul_y
                              (forward C (weights s) (bn_frozen s) (at_ d0))) d in
  let w_grad :=
    grad_weights C (fun w0 => kl_div_with_logit ul_y
                                (forward C w0 (bn_frozen s) (at_ d))) (weights s) in
  modify (fun s => set_grads (gadd C (grads s) w_grad) s) ;;
  let d := d_grad in
  zero_grad ;;
  ret d.

Fixpoint power_iteration (num_iters : nat) (ul_x : input) (ul_y : matrix) (xi : R)
  (ul_x_embed : option tensor) (vat_embed : bool) (d : tensor) : M vat tensor :=
  match num_iters with
  | O => ret d
  | S k =>
      d <- power_round ul_x ul_y xi ul_x_embed vat_embed d ;;
      power_iteration k ul_x ul_y xi ul_x_embed vat_embed d
  end.

(** [VAT.vat_loss]. *)
Definition vat_loss (ul_x : input) (ul_y : matrix) (xi eps : R) (num_iters : Z)
  (ul_x_embed : option tensor) (vat_embed : bool) : M vat R :=
  size <- lift (if vat_embed then size_of_embed ul_x_embed else size_of ul_x) ;;
  d <- draw_normal size ;;
  d <- power_iteration (Z.to_nat num_iters) ul_x ul_y xi ul_x_embed vat_embed d ;;
  d <- lift (_l2_normalize d) ;;
  let r_adv := scale eps d in
  at_ <- lift (perturbed vat_embed ul_x ul_x_embed) ;;
  s <- get ;;
  let y_hat := forward C (weights s) (bn_frozen s) (at_ r_adv) in
  let delta_kl := kl_div_with_logit ul_y y_hat in
  ret delta_kl.

(** Defaults of [vat_loss]'s keyword arguments. *)
Definition default_xi : R := 1e-6.

Definition default_num_iters : Z := 1.

(** [VAT.train_step]; the returned dict keeps its insertion order. *)
Definition train_step (x_lb : input) (y_lb : list Z) (x_ulb_w : input)
  : M vat (list (string * R)) :=
  s <- get ;;
  let logits_x_lb := forward C (weights s) (bn_frozen s) x_lb in
  let sup_loss := ce_loss C logits_x_lb y_lb in
  r <- (if vat_embed s then
          freeze_bn ;;
          s <- get ;;
          let '(ul_x_embed, ul_y) :=
            forward_embed C (weights s) (bn_frozen s) x_ulb_w in
          unsup_loss <- vat_loss x_ulb_w ul_y default_xi (vat_eps s)
                          default_num_iters (Some ul_x_embed) true ;;
          unfreeze_bn ;;
          ret (ul_y, unsup_loss)
        else
          freeze_bn ;;
          s <- get ;;
          let ul_y := forward C (weights s) (bn_frozen s) x_ulb_w in
          unsup_loss <- vat_loss x_ulb_w ul_y default_xi (vat_eps s)
                          default_num_iters None false ;;
          unfreeze_bn ;;
          ret (ul_y, unsup_loss)) ;;
  let '(ul_y, unsup_loss) := r in
  let loss_entmin := entropy_loss ul_y in
  unsup_warmup <- lift (unsup_warmup_coef (it s) (unsup_warm_up s) (num_train_iter s)) ;;
  let total_loss :=
    sup_loss + lambda_u s * unsup_loss * unsup_warmup + lambda_ent s * loss_entmin in
  modify (parameter_update C total_loss) ;;
  ret [("train/sup_loss"%string, sup_loss);
       ("train/unsup_loss"%string, unsup_loss);
       ("train/loss_entmin"%string, loss_entmin);
       ("train/total_loss"%string, total_loss)].

End Algorithm.

End VAT.

(* ===================================================================== *)
(** ** train.py *)
(* ===================================================================== *)

Module Train.

Import Py.Notations.
Local Open Scope string_scope.
Local Open Scope Z_scope.
Local Open Scope py_scope.

(** *** The argument namespace *)

(** [args.gpu]: an index, [None], or the string ['None'] a config file may
    carry. *)
Inductive gpu_arg : Type :=
| GpuIndex (i : Z)
| GpuNone
| GpuNoneString.

(** The attributes of [args] that [main] and [main_worker] read or write;
    the others are only handed on to the dataset and network builders. *)
Record args : Type := mk_args {
  save_dir : string;
  save_name : string;
  resume : bool;
  load_path : option string;
  overwrite : bool;
  use_tensorboard : bool;
  epoch : Z;
  num_train_iter : Z;
  num_warmup_iter : Z;
  batch_size : Z;
  uratio : Z;
  eval_batch_size : Z;
  num_workers : Z;
  algorithm : string;
  train_sampler : string;
  seed : option Z;
  gpu : gpu_arg;
  dist_url : string;
  dist_backend : string;
  world_size : Z;
  rank : Z;
  multiprocessing_distributed : bool;
  distributed : bool;
  ulb_dest_len : Z;
  lb_dest_len : Z
}.

Definition set_resume (v : bool) (a : args) : args :=
  mk_args (save_dir a) (save_name a) v (load_path a) (overwrite a)
    (use_tensorboard a) (epoch a) (num_train_iter a) (num_warmup_iter a)
    (batch_size a) (uratio a) (eval_batch_size a) (num_workers a) (algorithm
    a) (train_sampler a) (seed a) (gpu a) (dist_url a) (dist_backend a)
    (world_size a) (rank a) (multiprocessing_distributed a) (distributed a)
    (ulb_dest_len a) (lb_dest_len a).

Definition set_batch_size (v : Z) (a : args) : args :=
  mk_args (save_dir a) (save_name a) (resume a) (load_path a) (overwrite a)
    (use_tensorboard a) (epoch a) (num_train_iter a) (num_warmup_iter a) v
    (uratio a) (eval_batch_size a) (num_workers a) (algorithm a)
    (train_sampler a) (seed a) (gpu a) (dist_url a) (dist_backend a)
    (world_size a) (rank a) (multiprocessing_distributed a) (distributed a)
    (ulb_dest_len a) (lb_dest_len a).

Definition set_gpu (v : gpu_arg) (a : args) : args :=
  mk_args (save_dir a) (save_name a) (resume a) (load_path a) (overwrite a)
    (use_tensorboard a) (epoch a) (num_train_iter a) (num_warmup_iter a)
    (batch_size a) (uratio a) (eval_batch_size a) (num_workers a) (algorithm
    a) (train_sampler a) (seed a) v (dist_url a) (dist_backend a) (world_size
    a) (rank a) (multiprocessing_distributed a) (distributed a) (ulb_dest_len
    a) (lb_dest_len a).

Definition set_world_size (v : Z) (a : args) : args :=
  mk_args (save_dir a) (save_name a) (resume a) (load_path a) (overwrite a)
    (use_tensorboard a) (epoch a) (num_train_iter a) (num_warmup_iter a)
    (batch_size a) (uratio a) (eval_batch_size a) (num_workers a) (algorithm
    a) (train_sampler a) (seed a) (gpu a) (dist_url a) (dist_backend a) v
    (rank a) (multiprocessing_distributed a) (distributed a) (ulb_dest_len a)
    (lb_dest_len a).

Definition set_rank (v : Z) (a : args) : args :=
  mk_args (save_dir a) (save_name a) (resume a) (load_path a) (overwrite a)
    (use_tensorboard a) (epoch a) (num_train_iter a) (num_warmup_iter a)
    (batch_size a) (uratio a) (eval_batch_size a) (num_workers a) (algorithm
    a) (train_sampler a) (seed a) (gpu a) (dist_url a) (dist_backend a)
    (world_size a) v (multiprocessing_distributed a) (distributed a)
    (ulb_dest_len a) (lb_dest_len a).

Definition set_distributed (v : bool) (a : args) : args :=
  mk_args (save_dir a) (save_name a) (resume a) (load_path a) (overwrite a)
    (use_tensorboard a) (epoch a) (num_train_iter a) (num_warmup_iter a)
    (batch_size a) (uratio a) (eval_batch_size a) (num_workers a) (algorithm
    a) (train_sampler a) (seed a) (gpu a) (dist_url a) (dist_backend a)
    (world_size a) (rank a) (multiprocessing_distributed a) v (ulb_dest_len a)
    (lb_dest_len a).

Definition set_ulb_dest_len (v : Z) (a : args) : args :=
  mk_args (save_dir a) (save_name a) (resume a) (load_path a) (overwrite a)
    (use_tensorboard a) (epoch a) (num_train_iter a) (num_warmup_iter a)
    (batch_size a) (uratio a) (eval_batch_size a) (num_workers a) (algorithm
    a) (train_sampler a) (seed a) (gpu a) (dist_url a) (dist_backend a)
    (world_size a) (rank a) (multiprocessing_distributed a) (distributed a) v
    (lb_dest_len a).

Definition set_lb_dest_len (v : Z) (a : args) : args :=
  mk_args (save_dir a) (save_name a) (resume a) (load_path a) (overwrite a)
    (use_tensorboard a) (epoch a) (num_train_iter a) (num_warmup_iter a)
    (batch_size a) (uratio a) (eval_batch_size a) (num_workers a) (algorithm
    a) (train_sampler a) (seed a) (gpu a) (dist_url a) (dist_backend a)
    (world_size a) (rank a) (multiprocessing_distributed a) (distributed a)
    (ulb_dest_len a) v.

(** [action='store_true'] with a default: giving the flag stores [True],
    leaving it out stores the default. *)
Definition store_true (default given : bool) : bool :=
  if given then true else default.

Definition str (z : Z) : string := NilZero.string_of_int (Z.to_int z).

(** The namespace the parser of [__main__] produces when only the
    [store_true] flags vary, with [dist_url] rewritten from the free port. *)
Definition parse_args (given_resume given_overwrite given_use_tensorboard : bool)
  (port : Z) : args :=
  {| save_dir := "./saved_models";
     save_name := "fixmatch";
     resume := store_true false given_resume;
     load_path := None;
     overwrite := store_true true given_overwrite;
     use_tensorboard := store_true false given_use_tensorboard;
     epoch := 1024;
     num_train_iter := 2 ^ 20;
     num_warmup_iter := 0;
     batch_size := 4;
     uratio := 1;
     eval_batch_size := 1024;
     num_workers := 1;
     algorithm := "fixmatch";
     train_sampler := "RandomSampler";
     seed := Some 1;
     gpu := GpuNone;
     dist_url := "tcp://127.0.0.1:" ++ str port;
     dist_backend := "nccl";
     world_size := 1;
     rank := 0;
     multiprocessing_distributed := false;
     distributed := false;
     ulb_dest_len := 0;
     lb_dest_len := 0 |}.

Definition default_args (port : Z) : args := parse_args false false false port.

(** *** The world the launcher acts on *)

(** The algorithm object [get_algorithm] returns, as far as [main_worker]
    looks at it. *)
Record ssl_algorithm : Type := mk_ssl_algorithm {
  alg_it : Z;
  alg_has_warmup : bool;
  alg_has_finetune : bool
}.

(** Calls that leave [train.py], in the order they are made. *)
Inductive event : Type :=
| Rmtree (path : string)
| Warn (msg : string)
| CudaDeviceCount
| MpSpawn (nprocs : Z) (ngpus_per_node : Z) (spawn_args : args)
| SetSeeds (seed : Z)
| InitProcessGroup (backend init_method : string) (world_size rank : Z)
| NewTBLog (save_path : string) (use_tensorboard : bool)
| GetLogger (name save_path level : string)
| LogInfo (msg : string)
| Barrier
| GetDataset
| NetBuilder
| GetAlgorithm
| GetOptimizer
| GetScheduler (num_train_iter num_warmup_steps : Z)
| SetOptimizer
| CudaIsAvailable
| CudaSetDevice (gpu : Z)
| ModelCuda (gpu : option Z)
| ConvertSyncBatchNorm
| WrapDistributedDataParallel (find_unused_parameters : bool) (device_ids : option Z)
| WrapDataParallel
| GetDataLoader (dset : string) (batch_size : Z) (data_sampler : option string)
    (num_workers : Z) (distributed : option bool)
| SetDataLoader
| LoadModel (path : string)
| AlgWarmup
| AlgTrain (start_it : Z)
| AlgFinetune
| SaveModel (name save_path : string)
| LoggingWarning (msg : string).

Record world : Type := mk_world {
  w_args : args;
  w_fs : list string;
  w_model : option ssl_algorithm;
  w_trace : list event
}.

(** What the process finds around it and what its collaborators answer.
    Collaborators are taken to return normally, except the checkpoint
    reader, whose failure the launcher handles. *)
Record env : Type := mk_env {
  environ : string -> option Z;
  cuda_is_available : bool;
  cuda_device_count : Z;
  abspath : string -> string;
  train_ulb_len : option Z;
  train_lb_len : Z;
  has_test : bool;
  get_algorithm : args -> ssl_algorithm;
  count_parameters : Z;
  load_model : string -> ssl_algorithm -> outcome unit * ssl_algorithm;
  train : ssl_algorithm -> list (string * string) * ssl_algorithm
}.

Definition get_args : M world args := fun w => (Returned (w_args w), w).

Definition modify_args (f : args -> args) : M world unit :=
  modify (fun w => mk_world (f (w_args w)) (w_fs w) (w_model w) (w_trace w)).

Definition get_fs : M world (list string) := fun w => (Returned (w_fs w), w).

Definition set_fs (fs : list string) : M world unit :=
  modify (fun w => mk_world (w_args w) fs (w_model w) (w_trace w)).

Definition get_model : M world ssl_algorithm :=
  fun w =>
    match w_model w with
    | Some m => (Returned m, w)
    | None => (Raised AttributeError, w)
    end.

Definition set_model (m : ssl_algorithm) : M world unit :=
  modify (fun w => mk_world (w_args w) (w_fs w) (Some m) (w_trace w)).

Definition emit (e : event) : M world unit :=
  modify (fun w => mk_world (w_args w) (w_fs w) (w_model w) (w_trace w ++ [e])).

Definition assert_ (c : bool) (msg : string) : M world unit :=
  if c then ret tt else raise (AssertionError msg).

(** *** Paths and the file system *)

Fixpoint ends_with_sep (p : string) : bool :=
  match p with
  | EmptyString => false
  | String c EmptyString => Ascii.eqb c "/"
  | String _ rest => ends_with_sep rest
  end.

(** [os.path.join(a, b)] of posixpath. *)
Definition path_join (a b : string) : string :=
  if prefix "/" b then b
  else if (a =? "")%string || ends_with_sep a then a ++ b
  else a ++ "/" ++ b.

(** The file system is the list of paths that exist. *)
Definition path_exists (p : string) (fs : list string) : bool :=
  existsb (String.eqb p) fs.

Definition under (p q : string) : bool :=
  (q =? p)%string || prefix (p ++ "/") q.

(** [shutil.rmtree(p)]: [p] and everything below it is gone. *)
Definition rmtree (p : string) : M world unit :=
  fs <- get_fs ;;
  set_fs (filter (fun q => negb (under p q)) fs) ;;
  emit (Rmtree p).

(** *** Small pieces of Python *)

(** [a % b] on ints. *)
Definition py_mod (a b : Z) : outcome Z :=
  if b =? 0 then Raised ZeroDivisionError else Returned (a mod b).

(** [int(a / b)] on ints: true division, then truncation towards zero
    (exact while the operands stay below 2^53). *)
Definition int_truediv (a b : Z) : outcome Z :=
  if b =? 0 then Raised ZeroDivisionError else Returned (Z.quot a b).

(** [int(os.environ[k])]. *)
Definition environ_int (E : env) (k : string) : outcome Z :=
  match environ E k with
  | Some v => Returned v
  | None => Raised (KeyError k)
  end.

Definition gpu_is_none (g : gpu_arg) : bool :=
  match g with GpuNone => true | _ => false end.

Definition str_gpu (g : gpu_arg) : string :=
  match g with
  | GpuIndex i => str i
  | GpuNone => "None"
  | GpuNoneString => "None"
  end.

Definition str_opt (o : option string) : string :=
  match o with Some s => s | None => "None" end.

(** [torch.cuda.set_device(args.gpu)] and the like need an index. *)
Definition gpu_index (g : gpu_arg) : outcome Z :=
  match g with
  | GpuIndex i => Returned i
  | _ => Raised TypeError
  end.

(** *** [main_worker] *)

Section Launcher.

Variable E : env.

(** [model.load_model(path)]: whatever the reader did to the object before
    it raised stays done. *)
Definition call_load_model (path : string) : M world unit :=
  emit (LoadModel path) ;;
  m <- get_model ;;
  let '(o, m') := load_model E path m in
  set_model m' ;;
  lift o.

(** [for key, item in result.items(): logger.info(...)]. *)
Fixpoint log_results (result : list (string * string)) : M world unit :=
  match result with
  | [] => ret tt
  | (key, item) :: rest =>
      emit (LogInfo ("Model result - " ++ key ++ " : " ++ item)) ;;
      log_results rest
  end.

Definition find_unused_parameters (a : args) : bool :=
  (algorithm a =? "simmatch")%string || (algorithm a =? "crmatch")%string.

(** [main_worker] block by block, under the headings the source gives them.
    [save_path] is recomputed where it is used: [save_dir] and [save_name]
    are never assigned. *)

Definition save_path_of (a : args) : string :=
  path_join (save_dir a) (save_name a).

(** Lines 82-101. *)
Definition setup_distributed (gpu_ : gpu_arg) (ngpus_per_node : Z) : M world unit :=
  modify_args (set_gpu gpu_) ;;
  a <- get_args ;;
  (* random seed has to be set for the synchronization of labeled data sampling *)
  seed_ <- match seed a with
           | Some v => ret v
           | None => raise (AssertionError "")
           end ;;
  emit (SetSeeds seed_) ;;
  (* SET UP FOR DISTRIBUTED TRAINING *)
  when (distributed a)
    (when ((dist_url a =? "env://")%string && (rank a =? -1))
       (r <- lift (environ_int E "RANK") ;; modify_args (set_rank r)) ;;
     when (multiprocessing_distributed a)
       (a <- get_args ;;
        g <- lift (gpu_index gpu_) ;;
        modify_args (set_rank (rank a * ngpus_per_node + g))) ;;
     a <- get_args ;;
     emit (InitProcessGroup (dist_backend a) (dist_url a) (world_size a) (rank a))).

(** Lines 103-112: SET save_path and logger. *)
Definition set_logger (ngpus_per_node : Z) : M world unit :=
  a <- get_args ;;
  r <- lift (py_mod (rank a) ngpus_per_node) ;;
  logger_level <- (if r =? 0
                   then emit (NewTBLog (save_path_of a) (use_tensorboard a)) ;;
                        ret "INFO"
                   else ret "WARNING") ;;
  emit (GetLogger (save_name a) (save_path_of a) logger_level) ;;
  emit (LogInfo ("Use GPU: " ++ str_gpu (gpu a) ++ " for training")).

(** Lines 114-137: Construct Dataset, the algorithm, optimizer and scheduler. *)
Definition construct_dataset_and_algorithm : M world unit :=
  a <- get_args ;;
  when (negb (rank a =? 0) && distributed a) (emit Barrier) ;;
  emit GetDataset ;;
  modify_args (set_ulb_dest_len
                 (match train_ulb_len E with Some n => n | None => 0 end)) ;;
  modify_args (set_lb_dest_len (train_lb_len E)) ;;
  a <- get_args ;;
  emit (LogInfo ("unlabeled data number: " ++ str (ulb_dest_len a)
                 ++ ", labeled data number " ++ str (lb_dest_len a))) ;;
  when ((rank a =? 0) && distributed a) (emit Barrier) ;;
  emit NetBuilder ;;
  emit GetAlgorithm ;;
  set_model (get_algorithm E a) ;;
  emit (LogInfo ("Number of Trainable Params: " ++ str (count_parameters E))) ;;
  (* SET Optimizer & LR Scheduler *)
  emit GetOptimizer ;;
  emit (GetScheduler (num_train_iter a) (num_warmup_iter a)) ;;
  emit SetOptimizer.

(** Lines 139-168: SET Devices for (Distributed) DataParallel. *)
Definition set_devices (ngpus_per_node : Z) : M world unit :=
  a <- get_args ;;
  emit CudaIsAvailable ;;
  (if negb (cuda_is_available E) then
     raise (Exception "ONLY GPU TRAINING IS SUPPORTED")
   else if distributed a then
     if negb (gpu_is_none (gpu a)) then
       g <- lift (gpu_index (gpu a)) ;;
       emit (CudaSetDevice g) ;;
       (* batch_size: batch_size per node -> batch_size per gpu
          workers: workers per node -> workers per gpu *)
       b <- lift (int_truediv (batch_size a) ngpus_per_node) ;;
       modify_args (set_batch_size b) ;;
       emit (ModelCuda (Some g)) ;;
       emit ConvertSyncBatchNorm ;;
       emit (WrapDistributedDataParallel (find_unused_parameters a) (Some g))
     else
       (* if arg.gpu is None, DDP will divide and allocate batch_size
          to all available GPUs if device_ids are not set. *)
       emit (ModelCuda None) ;;
       emit (WrapDistributedDataParallel (find_unused_parameters a) None)
   else if negb (gpu_is_none (gpu a)) then
     g <- lift (gpu_index (gpu a)) ;;
     emit (CudaSetDevice g) ;;
     emit (ModelCuda (Some g))
   else
     emit WrapDataParallel ;;
     emit (ModelCuda None)) ;;
  emit (LogInfo "model_arch: ") ;;
  emit (LogInfo "Arguments: ").

(** Lines 170-208: Construct Dataset & DataLoader. *)
Definition construct_loaders : M world unit :=
  a <- get_args ;;
  emit (GetDataLoader "train_lb" (batch_size a) (Some (train_sampler a))
          (num_workers a) (Some (distributed a))) ;;
  emit (GetDataLoader "train_ulb" (batch_size a * uratio a) (Some (train_sampler a))
          (2 * num_workers a) (Some (distributed a))) ;;
  emit (GetDataLoader "eval" (eval_batch_size a) None (num_workers a) None) ;;
  when (has_test E)
    (emit (GetDataLoader "test" (eval_batch_size a) None (num_workers a) None)) ;;
  emit SetDataLoader ;;
  emit (LogInfo "Create train and test data loaders").

(** Lines 210-218: If args.resume, load checkpoints from args.load_path. *)
Definition resume_checkpoint : M world unit :=
  a <- get_args ;;
  fs <- get_fs ;;
  found <- (if resume a then
              match load_path a with
              | Some p => ret (path_exists p fs)
              | None => raise TypeError
              end
            else ret false) ;;
  if found then
    try_except
      (match load_path a with
       | Some p => call_load_model p
       | None => raise TypeError
       end)
      (emit (LogInfo ("Fail to resume load path " ++ str_opt (load_path a))) ;;
       modify_args (set_resume false))
  else
    emit (LogInfo ("Resume load path " ++ str_opt (load_path a) ++ " does not exist")).

(** Lines 220-240: warm-up hook, training, fine-tune hook, final checkpoint. *)
Definition run_training (ngpus_per_node : Z) : M world unit :=
  m <- get_model ;;
  when (alg_has_warmup m) (emit (LogInfo "Warmup stage") ;; emit AlgWarmup) ;;
  (* START TRAINING *)
  emit (LogInfo "Model training") ;;
  m <- get_model ;;
  emit (AlgTrain (alg_it m)) ;;
  let '(result, m') := train E m in
  set_model m' ;;
  log_results result ;;
  when (alg_has_finetune m') (emit (LogInfo "Finetune stage") ;; emit AlgFinetune) ;;
  a <- get_args ;;
  save <- (if negb (multiprocessing_distributed a) then ret true
           else r <- lift (py_mod (rank a) ngpus_per_node) ;; ret (r =? 0)) ;;
  when save (emit (SaveModel "latest_model.pth" (save_path_of a))) ;;
  emit (LoggingWarning ("GPU " ++ str (rank a) ++ " training is FINISHED")).

Definition main_worker (gpu_ : gpu_arg) (ngpus_per_node : Z) : M world unit :=
  setup_distributed gpu_ ngpus_per_node ;;
  set_logger ngpus_per_node ;;
  construct_dataset_and_algorithm ;;
  set_devices ngpus_per_node ;;
  construct_loaders ;;
  resume_checkpoint ;;
  run_training ngpus_per_node.

(** *** [main] *)

(** Lines 30-31. *)
Definition check_iteration_budget : M world unit :=
  a <- get_args ;;
  r <- lift (py_mod (num_train_iter a) (epoch a)) ;;
  assert_ (r =? 0)
    ("# total training iter. " ++ str (num_train_iter a)
     ++ " is not divisible by # epochs " ++ str (epoch a)).

(** Lines 33-38. *)
Definition prepare_save_path : M world unit :=
  a <- get_args ;;
  let save_path := path_join (save_dir a) (save_name a) in
  fs <- get_fs ;;
  when (path_exists save_path fs && overwrite a && Bool.eqb (resume a) false)
    (rmtree save_path) ;;
  fs <- get_fs ;;
  when (path_exists save_path fs && negb (overwrite a))
    (raise (Exception ("already existing model: " ++ save_path))).

(** Lines 39-44. *)
Definition check_resume_args : M world unit :=
  a <- get_args ;;
  let save_path := path_join (save_dir a) (save_name a) in
  when (resume a)
    (match load_path a with
     | None => raise (Exception "Resume of training requires --load_path in the args")
     | Some lp =>
         when ((abspath E save_path =? abspath E lp)%string && negb (overwrite a))
           (raise (Exception
              "Saving & Loading pathes are same.                              If you want over-write, give --overwrite in the argument."))
     end).

(** Lines 46-73. *)
Definition launch : M world unit :=
  a <- get_args ;;
  when (match seed a with Some _ => true | None => false end)
    (emit (Warn "You have chosen to seed training. This will turn on the CUDNN deterministic setting, which can slow down your training considerably! You may see unexpected behavior when restarting from checkpoints.")) ;;
  when (match gpu a with GpuNoneString => true | _ => false end)
    (modify_args (set_gpu GpuNone)) ;;
  a <- get_args ;;
  when (negb (gpu_is_none (gpu a)))
    (emit (Warn "You have chosen a specific GPU. This will completely disable data parallelism.")) ;;
  when ((dist_url a =? "env://")%string && (world_size a =? -1))
    (ws <- lift (environ_int E "WORLD_SIZE") ;; modify_args (set_world_size ws)) ;;
  (* distributed: true if manually selected or if world_size > 1 *)
  a <- get_args ;;
  modify_args (set_distributed ((world_size a >? 1) || multiprocessing_distributed a)) ;;
  emit CudaDeviceCount ;;
  let ngpus_per_node := cuda_device_count E in
  if multiprocessing_distributed a then
    (* now, args.world_size means num of total processes in all nodes *)
    modify_args (set_world_size (ngpus_per_node * world_size a)) ;;
    a <- get_args ;;
    emit (MpSpawn ngpus_per_node ngpus_per_node a)
  else
    a <- get_args ;;
    main_worker (gpu a) ngpus_per_node.

Definition main : M world unit :=
  check_iteration_budget ;;
  prepare_save_path ;;
  check_resume_args ;;
  launch.

End Launcher.

End Train.

(* ===================================================================== *)
(** ** lighting/config.py *)
(* ===================================================================== *)

Module Config.

Local Open Scope string_scope.

(** What an attribute of the namespace can hold; a float default is kept as
    the decimal it is written as. *)
Inductive value : Type :=
| VNone
| VBool (b : bool)
| VInt (z : Z)
| VFloat (q : QArith_base.Q)
| VStr (s : string).

(** An [argparse.Namespace], by attribute name. *)
Definition namespace : Type := list (string * value).

Fixpoint lookup (k : string) (ns : namespace) : option value :=
  match ns with
  | [] => None
  | (k', v) :: rest => if (k' =? k)%string then Some v else lookup k rest
  end.

(** [args.k]. *)
Definition getattr (ns : namespace) (k : string) : outcome value :=
  match lookup k ns with
  | Some v => Returned v
  | None => Raised AttributeError
  end.

(** [args.k = v]. *)
Fixpoint setattr (k : string) (v : value) (ns : namespace) : namespace :=
  match ns with
  | [] => [(k, v)]
  | (k', v') :: rest =>
      if (k' =? k)%string then (k, v) :: rest else (k', v') :: setattr k v rest
  end.

(** One [parser.add_argument] call: its flags and its default. *)
Record option_spec : Type := mk_option {
  flags : list string;
  default : value
}.

Definition parser : Type := list option_spec.

Fixpoint lstrip_dashes (s : string) : string :=
  match s with
  | String c rest => if Ascii.eqb c "-" then lstrip_dashes rest else s
  | EmptyString => s
  end.

Fixpoint dashes_to_underscores (s : string) : string :=
  match s with
  | String c rest =>
      String (if Ascii.eqb c "-" then "_"%char else c) (dashes_to_underscores rest)
  | EmptyString => EmptyString
  end.

(** The attribute argparse stores an option under: its first long flag (or,
    without one, its first flag), leading dashes dropped, inner dashes turned
    into underscores. *)
Definition dest (o : option_spec) : string :=
  match find (prefix "--") (flags o) with
  | Some f => dashes_to_underscores (lstrip_dashes f)
  | None =>
      match flags o with
      | f :: _ => dashes_to_underscores (lstrip_dashes f)
      | [] => ""
      end
  end.

(** What [parse_args] does first for each option: an attribute not yet in
    the namespace is set to the option's default. *)
Definition set_default (ns : namespace) (o : option_spec) : namespace :=
  match lookup (dest o) ns with
  | Some _ => ns
  | None => setattr (dest o) (default o) ns
  end.

(** [parser.parse_args] on an empty argument list: every option at its
    default; of two options with one attribute the first sets it. *)
Definition parse_nothing (p : parser) : namespace :=
  fold_left set_default p [].

Definition uses_flag (f : string) (o : option_spec) : bool :=
  existsb (String.eqb f) (flags o).

(** [parser.add_argument(name, default=...)] on a parser with the default
    conflict handler: a flag already in use is an error. *)
Definition add_argument (name : string) (d : value) (p : parser) : outcome parser :=
  if existsb (uses_flag name) p
  then Raised (Exception ("argument " ++ name ++ ": conflicting option string: " ++ name))
  else Returned (p ++ [mk_option [name] d])%list.

(** The options [get_config] declares, lines 17 to 108. *)
Definition lighting_parser : parser :=
  [
   mk_option ["--save_dir"] (VStr "./saved_models");
   mk_option ["-sn"; "--save_name"] (VNone);
   mk_option ["--resume"] (VBool false);
   mk_option ["--load_path"] (VNone);
   mk_option ["-o"; "--overwrite"] (VBool false);
   mk_option ["--use_tensorboard"] (VBool false);
   mk_option ["--epoch"] (VInt 1024);
   mk_option ["--num_train_iter"] (VInt 1048576);
   mk_option ["--num_eval_iter"] (VInt 5000);
   mk_option ["-nl"; "--num_labels"] (VInt 40);
   mk_option ["-bsz"; "--batch_size"] (VInt 64);
   mk_option ["--uratio"] (VInt 7);
   mk_option ["--eval_batch_size"] (VInt 1024);
   mk_option ["--ema_m"] (VFloat (QArith_base.Qmake 999 1000));
   mk_option ["--ulb_loss_ratio"] (VFloat (QArith_base.Qmake 1 1));
   mk_option ["--optim"] (VStr "SGD");
   mk_option ["--lr"] (VFloat (QArith_base.Qmake 3 100));
   mk_option ["--momentum"] (VFloat (QArith_base.Qmake 9 10));
   mk_option ["--weight_decay"] (VFloat (QArith_base.Qmake 1 2000));
   mk_option ["--net"] (VStr "wrn_28_2");
   mk_option ["--net_from_name"] (VBool false);
   mk_option ["--use_pretrain"] (VBool false);
   mk_option ["--pretrain_path"] (VStr "");
   mk_option ["-alg"; "--algorithm"] (VStr "remixmatch");
   mk_option ["--use_cat"] (VBool true);
   mk_option ["--use_amp"] (VBool false);
   mk_option ["--clip_grad"] (VInt 0);
   mk_option ["--data_dir"] (VStr "./data");
   mk_option ["-ds"; "--dataset"] (VStr "cifar10");
   mk_option ["--train_sampler"] (VStr "RandomSampler");
   mk_option ["-nc"; "--num_classes"] (VInt 10);
   mk_option ["--num_workers"] (VInt 1);
   mk_option ["--img_size"] (VInt 32);
   mk_option ["--crop_ratio"] (VFloat (QArith_base.Qmake 7 8));
   mk_option ["--max_length"] (VInt 512);
   mk_option ["--max_length_seconds"] (VFloat (QArith_base.Qmake 4 1));
   mk_option ["--sample_rate"] (VInt 16000);
   mk_option ["--world-size"] (VInt 1);
   mk_option ["--rank"] (VInt 0);
   mk_option ["-du"; "--dist-url"] (VStr "tcp://127.0.0.1:11111");
   mk_option ["--dist-backend"] (VStr "nccl");
   mk_option ["--seed"] (VInt 1);
   mk_option ["--gpu"] (VNone);
   mk_option ["--multiprocessing-distributed"] (VBool false)
  ].

(** An [SSL_Argument], as far as [get_config] uses it. *)
Record SSL_Argument : Type := mk_SSL_Argument {
  arg_name : string;
  arg_default : value
}.

(** [VAT.get_argument] of vat.py. *)
Definition vat_get_argument : list SSL_Argument :=
  [mk_SSL_Argument "--ent_loss_ratio" (VFloat (QArith_base.Qmake 6 100));
   mk_SSL_Argument "--vat_eps" (VInt 6);
   mk_SSL_Argument "--vat_embed" (VBool false);
   mk_SSL_Argument "--unsup_warm_up" (VFloat (QArith_base.Qmake 4 10))].

(** The keyword defaults of [VAT.init]: [unsup_warm_up], [vat_eps],
    [vat_embed]. *)
Definition vat_init_defaults : namespace :=
  [("unsup_warm_up", VFloat (QArith_base.Qmake 4 10));
   ("vat_eps", VInt 6);
   ("vat_embed", VBool false)].

(** What [get_config] imports: the registry [name2alg] (with each class's
    [get_argument()]), [over_write_args_from_dict] and [get_port]. *)
Record env : Type := mk_env {
  name2alg : string -> option (list SSL_Argument);
  over_write_args_from_dict : namespace -> namespace -> namespace;
  get_port : Z
}.

Definition and_then {A B} (o : outcome A) (k : A -> outcome B) : outcome B :=
  match o with
  | Returned a => k a
  | Raised e => Raised e
  end.

(** [for argument in ...: parser.add_argument(argument.name, ...)]. *)
Fixpoint add_arguments (l : list SSL_Argument) (p : parser) : outcome parser :=
  match l with
  | [] => Returned p
  | a :: rest =>
      and_then (add_argument (arg_name a) (arg_default a) p) (add_arguments rest)
  end.

(** [name2alg[key]]: the registry is keyed by strings. *)
Definition registry_lookup (E : env) (key : value) : outcome (list SSL_Argument) :=
  match key with
  | VStr alg =>
      match name2alg E alg with
      | Some l => Returned l
      | None => Raised (KeyError alg)
      end
  | _ => Raised (KeyError "")
  end.

(** [a + '_' + b]. *)
Definition join_names (a b : value) : outcome value :=
  match a, b with
  | VStr x, VStr y => Returned (VStr (x ++ "_" ++ y))
  | _, _ => Raised TypeError
  end.

(** [get_config]. *)
Definition get_config (E : env) (config : namespace) : outcome namespace :=
  let parser := lighting_parser in
  (* add algorithm specific parameters *)
  let args := parse_nothing parser in
  let args := over_write_args_from_dict E args config in
  and_then (getattr args "algorithm") (fun alg =>
  and_then (registry_lookup E alg) (fun arguments =>
  and_then (add_arguments arguments parser) (fun parser =>
  let args := parse_nothing parser in
  let args := over_write_args_from_dict E args config in
  and_then (getattr args "save_name") (fun save_name =>
  and_then (match save_name with
            | VNone =>
                and_then (getattr args "algorithm") (fun a =>
                and_then (getattr args "dataset") (fun d =>
                and_then (join_names a d) (fun n =>
                Returned (setattr "save_name" n args))))
            | _ => Returned args
            end) (fun args =>
  let port := get_port E in
  Returned (setattr "dist_url" (VStr ("tcp://127.0.0.1:" ++ Train.str port)) args)))))).

End Config.

Unset Implicit Arguments.

(* ===================================================================== *)
(** ** Vocabulary for the statements about vat.py *)
(* ===================================================================== *)

Module VATSpec.

Import VAT.
Local Open Scope R_scope.

(** What [_l2_normalize] returns, as a total function. *)
Definition normalized (d : tensor) : tensor :=
  match _l2_normalize d with
  | Returned n => n
  | Raised _ => d
  end.

(** [delta_kl] of a probing round as a function of the perturbation. *)
Definition delta_kl_of {W G : Type} (C : capability W G) (ul_y : matrix)
  (at_ : tensor -> input) (s : vat W G) (d0 : tensor) : R :=
  kl_div_with_logit ul_y (forward C (weights s) (bn_frozen s) (at_ d0)).

(** The unlabeled batch has the form the configured mode works on: an array
    without [vat_embed], a tokenizer dict with it. *)
Definition accepts (vat_embed : bool) (x : input) : bool :=
  match x with
  | Dense _ => negb vat_embed
  | _ => vat_embed
  end.

(** Clipping as the specification reads it: values below [lo] become [lo],
    values above [hi] become [hi], the others stay. *)
Definition clamp (x lo hi : R) : R :=
  if Rlt_dec x lo then lo else if Rlt_dec hi x then hi else x.

(** The state [vat_loss] leaves behind when it has run at least one round:
    one draw taken from the generator, the gradient buffers cleared. *)
Definition after_search {W G : Type} (C : capability W G) (s : vat W G) : vat W G :=
  set_grads (gzero C) (set_rng (S (rng s)) s).

(** The outcome is the float [x], bit for bit. *)
Definition returns_f64 (x : PrimFloat.float) (o : outcome PrimFloat.float) : bool :=
  match o with
  | Returned y => PrimFloat.Leibniz.eqb y x
  | Raised _ => false
  end.

(** A [1 x 2] perturbation whose only row is [(3, 4)]. *)
Definition rank2_perturbation : tensor := mk_tensor [1%nat; 2%nat] [3; 4].

(** A [1 x 1 x 2] perturbation with the same entries. *)
Definition rank3_perturbation : tensor := mk_tensor [1%nat; 1%nat; 2%nat] [3; 4].

(** Logits with softmax [(1/2, 1/2)]. *)
Definition even_logits : matrix := [[0; 0]].


(** A one-weight network that ignores its input, for instances. *)
Definition toy_capability : capability R R :=
  {| forward := fun w _ _ => [[w; 0]];
     forward_embed := fun w _ _ => (mk_tensor [1%nat; 1%nat; 2%nat] [0; 0], [[w; 0]]);
     grad_input := fun _ d => d;
     grad_weights := fun _ _ => 1;
     gzero := 0;
     gadd := Rplus;
     normal_ := fun _ size => mk_tensor size (repeat 1 (numel size));
     ce_loss := fun _ _ => 0;
     parameter_update := fun _ s => s |}.

(** Iteration 200 of 1000 with the default warm-up share, and a stale
    gradient in the buffer. *)
Definition toy_state : vat R R :=
  {| it := 200; num_train_iter := 1000; unsup_warm_up := 4 / 10; vat_eps := 6;
     vat_embed := false; lambda_u := 1; lambda_ent := 6 / 100;
     weights := 0; grads := 5; bn_frozen := false; rng := 0 |}.

(** The same with the warm-up switched off by [unsup_warm_up = 0]. *)
Definition no_warmup_state : vat R R :=
  {| it := 200; num_train_iter := 1000; unsup_warm_up := 0; vat_eps := 6;
     vat_embed := false; lambda_u := 1; lambda_ent := 6 / 100;
     weights := 0; grads := 5; bn_frozen := false; rng := 0 |}.

(** Logits with [c_i] added to every entry of row [i] (rows beyond the
    constants stay as they are). *)
Fixpoint shift_rows (cs : list R) (x : matrix) : matrix :=
  match cs, x with
  | c :: cs', r :: x' => map (Rplus c) r :: shift_rows cs' x'
  | _, _ => x
  end.

(** Every example has [K] classes. *)
Definition classes (K : nat) (x : matrix) : Prop :=
  Forall (fun r => length r = K) x.

(** The term [(p * log p).sum(dim=1)] of one example. *)
Definition plogp_row (x : list R) : R :=
  rsum (zip_with Rmult (softmax_row x) (log_softmax_row x)).

End VATSpec.

(* ===================================================================== *)
(** ** Vocabulary for the statements about train.py *)
(* ===================================================================== *)

Module TrainSpec.

Import Train.
Local Open Scope string_scope.
Local Open Scope Z_scope.

(** A computation is [quiet] when it leaves the file system alone and only
    adds events at the end of the trace. *)
Definition quiet {A} (m : M world A) : Prop :=
  forall w, w_fs (snd (m w)) = w_fs w /\
            exists t, w_trace (snd (m w)) = (w_trace w ++ t)%list.

(** The world once [shutil.rmtree(p)] has run. *)
Definition after_rmtree (p : string) (w : world) : world :=
  mk_world (w_args w) (filter (fun q => negb (under p q)) (w_fs w))
           (w_model w) (w_trace w ++ [Rmtree p])%list.

(** The world with the events [t] added to its trace. *)
Definition add_events (t : list event) (w : world) : world :=
  mk_world (w_args w) (w_fs w) (w_model w) (w_trace w ++ t)%list.

(** Everything [main_worker] does before it looks at [args.resume]. *)
Definition worker_prefix (E : env) (g : gpu_arg) (n : Z) : M world unit :=
  Py.bind (setup_distributed E g n) (fun _ =>
  Py.bind (set_logger n) (fun _ =>
  Py.bind (construct_dataset_and_algorithm E) (fun _ =>
  Py.bind (set_devices E n) (fun _ =>
  construct_loaders E)))).

(** The calls of [get_data_loader]. *)
Definition is_data_loader (e : event) : bool :=
  match e with
  | GetDataLoader _ _ _ _ _ => true
  | _ => false
  end.

(** A budget of 100 iterations in 7 epochs. *)
Definition args_100_7 : args :=
  {| save_dir := "./saved_models";
     save_name := "fixmatch";
     resume := false;
     load_path := None;
     overwrite := true;
     use_tensorboard := false;
     epoch := 7;
     num_train_iter := 100;
     num_warmup_iter := 0;
     batch_size := 4;
     uratio := 1;
     eval_batch_size := 1024;
     num_workers := 1;
     algorithm := "vat";
     train_sampler := "RandomSampler";
     seed := Some 1;
     gpu := GpuNone;
     dist_url := "tcp://127.0.0.1:11111";
     dist_backend := "nccl";
     world_size := 1;
     rank := 0;
     multiprocessing_distributed := false;
     distributed := false;
     ulb_dest_len := 0;
     lb_dest_len := 0 |}.

(** [overwrite] switched off, as a config file can. *)
Definition args_no_overwrite : args :=
  {| save_dir := "./saved_models";
     save_name := "fixmatch";
     resume := false;
     load_path := None;
     overwrite := false;
     use_tensorboard := false;
     epoch := 1024;
     num_train_iter := 2 ^ 20;
     num_warmup_iter := 0;
     batch_size := 4;
     uratio := 1;
     eval_batch_size := 1024;
     num_workers := 1;
     algorithm := "vat";
     train_sampler := "RandomSampler";
     seed := Some 1;
     gpu := GpuNone;
     dist_url := "tcp://127.0.0.1:11111";
     dist_backend := "nccl";
     world_size := 1;
     rank := 0;
     multiprocessing_distributed := false;
     distributed := false;
     ulb_dest_len := 0;
     lb_dest_len := 0 |}.

(** A run resumed from a checkpoint. *)
Definition args_resume : args :=
  {| save_dir := "./saved_models";
     save_name := "fixmatch";
     resume := true;
     load_path := Some "./ckpt/latest_model.pth";
     overwrite := true;
     use_tensorboard := false;
     epoch := 1024;
     num_train_iter := 2 ^ 20;
     num_warmup_iter := 0;
     batch_size := 4;
     uratio := 1;
     eval_batch_size := 1024;
     num_workers := 1;
     algorithm := "vat";
     train_sampler := "RandomSampler";
     seed := Some 1;
     gpu := GpuNone;
     dist_url := "tcp://127.0.0.1:11111";
     dist_backend := "nccl";
     world_size := 1;
     rank := 0;
     multiprocessing_distributed := false;
     distributed := false;
     ulb_dest_len := 0;
     lb_dest_len := 0 |}.

(** One worker of a distributed launch on a node with two devices:
    8 examples and 4 loader workers per node. *)
Definition args_distributed : args :=
  {| save_dir := "./saved_models";
     save_name := "fixmatch";
     resume := false;
     load_path := None;
     overwrite := true;
     use_tensorboard := false;
     epoch := 1024;
     num_train_iter := 2 ^ 20;
     num_warmup_iter := 0;
     batch_size := 8;
     uratio := 1;
     eval_batch_size := 1024;
     num_workers := 4;
     algorithm := "vat";
     train_sampler := "RandomSampler";
     seed := Some 1;
     gpu := GpuIndex 0;
     dist_url := "tcp://127.0.0.1:11111";
     dist_backend := "nccl";
     world_size := 2;
     rank := 0;
     multiprocessing_distributed := false;
     distributed := true;
     ulb_dest_len := 0;
     lb_dest_len := 0 |}.

(** A machine with two devices, a data set without a test split, an
    algorithm without hooks, and a checkpoint reader that fails. *)
Definition demo_env : env :=
  {| environ := fun _ => None;
     cuda_is_available := true;
     cuda_device_count := 2;
     abspath := fun p => p;
     train_ulb_len := Some 1000;
     train_lb_len := 40;
     has_test := false;
     get_algorithm := fun _ => mk_ssl_algorithm 0 false false;
     count_parameters := 0;
     load_model := fun _ m => (Raised (Exception "corrupt checkpoint"), m);
     train := fun m => ([], m) |}.

(** A process at its start: no algorithm object yet, nothing done. *)
Definition world_of (a : args) (fs : list string) : world :=
  mk_world a fs None [].

(** [a] with another [seed]. *)
Definition with_seed (v : option Z) (a : args) : args :=
  mk_args (save_dir a) (save_name a) (resume a) (load_path a) (overwrite a)
    (use_tensorboard a) (epoch a) (num_train_iter a) (num_warmup_iter a)
    (batch_size a) (uratio a) (eval_batch_size a) (num_workers a) (algorithm
    a) (train_sampler a) v (gpu a) (dist_url a) (dist_backend a) (world_size
    a) (rank a) (multiprocessing_distributed a) (distributed a) (ulb_dest_len
    a) (lb_dest_len a).

(** [a] with another [load_path]. *)
Definition with_load_path (v : option string) (a : args) : args :=
  mk_args (save_dir a) (save_name a) (resume a) v (overwrite a)
    (use_tensorboard a) (epoch a) (num_train_iter a) (num_warmup_iter a)
    (batch_size a) (uratio a) (eval_batch_size a) (num_workers a) (algorithm
    a) (train_sampler a) (seed a) (gpu a) (dist_url a) (dist_backend a)
    (world_size a) (rank a) (multiprocessing_distributed a) (distributed a)
    (ulb_dest_len a) (lb_dest_len a).

(** [a] with another [multiprocessing_distributed]. *)
Definition with_multiprocessing_distributed (v : bool) (a : args) : args :=
  mk_args (save_dir a) (save_name a) (resume a) (load_path a) (overwrite a)
    (use_tensorboard a) (epoch a) (num_train_iter a) (num_warmup_iter a)
    (batch_size a) (uratio a) (eval_batch_size a) (num_workers a) (algorithm
    a) (train_sampler a) (seed a) (gpu a) (dist_url a) (dist_backend a)
    (world_size a) (rank a) v (distributed a) (ulb_dest_len a) (lb_dest_len a).

(** [a] with another [overwrite]. *)
Definition with_overwrite (v : bool) (a : args) : args :=
  mk_args (save_dir a) (save_name a) (resume a) (load_path a) v
    (use_tensorboard a) (epoch a) (num_train_iter a) (num_warmup_iter a)
    (batch_size a) (uratio a) (eval_batch_size a) (num_workers a) (algorithm
    a) (train_sampler a) (seed a) (gpu a) (dist_url a) (dist_backend a)
    (world_size a) (rank a) (multiprocessing_distributed a) (distributed a)
    (ulb_dest_len a) (lb_dest_len a).

(** Every event a computation adds to the trace satisfies [p]. *)
Definition emits (p : event -> bool) {A} (m : M world A) : Prop :=
  forall w, exists t,
    w_trace (snd (m w)) = (w_trace w ++ t)%list /\ forallb p t = true.

(** The computation raises from every world. *)
Definition fails {A} (m : M world A) : Prop :=
  forall w, exists e, fst (m w) = Raised e.

Definition is_rmtree (e : event) : bool :=
  match e with
  | Rmtree _ => true
  | _ => false
  end.

(** Building loaders, touching a checkpoint, training. *)
Definition is_training_event (e : event) : bool :=
  match e with
  | GetDataLoader _ _ _ _ _ | SetDataLoader | LoadModel _
  | AlgWarmup | AlgTrain _ | AlgFinetune | SaveModel _ _ => true
  | _ => false
  end.

Definition is_barrier (e : event) : bool :=
  match e with
  | Barrier => true
  | _ => false
  end.

Definition is_save_model (e : event) : bool :=
  match e with
  | SaveModel _ _ => true
  | _ => false
  end.

Definition is_warn (e : event) : bool :=
  match e with
  | Warn _ => true
  | _ => false
  end.

Definition is_new_tblog (e : event) : bool :=
  match e with
  | NewTBLog _ _ => true
  | _ => false
  end.

(** [demo_env] on a machine where [torch.cuda.is_available()] is false. *)
Definition no_cuda_env : env :=
  {| environ := fun _ => None;
     cuda_is_available := false;
     cuda_device_count := 2;
     abspath := fun p => p;
     train_ulb_len := Some 1000;
     train_lb_len := 40;
     has_test := false;
     get_algorithm := fun _ => mk_ssl_algorithm 0 false false;
     count_parameters := 0;
     load_model := fun _ m => (Raised (Exception "corrupt checkpoint"), m);
     train := fun m => ([], m) |}.

(** [demo_env] with a checkpoint reader that restores iteration 500. *)
Definition loading_env : env :=
  {| environ := fun _ => None;
     cuda_is_available := true;
     cuda_device_count := 2;
     abspath := fun p => p;
     train_ulb_len := Some 1000;
     train_lb_len := 40;
     has_test := false;
     get_algorithm := fun _ => mk_ssl_algorithm 0 false false;
     count_parameters := 0;
     load_model := fun _ m =>
       (Returned tt, mk_ssl_algorithm 500 (alg_has_warmup m) (alg_has_finetune m));
     train := fun m => ([], m) |}.

End TrainSpec.

(* ===================================================================== *)
(** ** Vocabulary for the statements about lighting/config.py *)
(* ===================================================================== *)

Module ConfigSpec.

Import Config.
Local Open Scope string_scope.

(** A registry that knows VAT only, an overwrite that sets each attribute of
    the config, and port 29500. *)
Definition sample_env : env :=
  {| name2alg := fun alg =>
       if (alg =? "vat")%string then Some vat_get_argument else None;
     over_write_args_from_dict := fun args config =>
       fold_left (fun ns kv => setattr (fst kv) (snd kv) ns) config args;
     get_port := 29500 |}.

(** A registry whose only algorithm declares an option named as a base
    option is. *)
Definition clashing_env : env :=
  {| name2alg := fun _ => Some [mk_SSL_Argument "--p_cutoff" (VFloat (QArith_base.Qmake 95 100));
                                mk_SSL_Argument "--seed" (VInt 0)];
     over_write_args_from_dict := over_write_args_from_dict sample_env;
     get_port := 29500 |}.

(** The option [get_config] declares for an [SSL_Argument]. *)
Definition option_of (a : SSL_Argument) : option_spec :=
  mk_option [arg_name a] (arg_default a).

End ConfigSpec.

(* ===================================================================== *)
(** ** Facts about arrays *)
(* ===================================================================== *)

Module TensorFacts.

Local Open Scope R_scope.

Lemma chunks_length (c n : nat) (l : list R) : length (chunks c n l) = n.
Proof.
  revert l; induction n as [|n IH]; intros l; simpl; [reflexivity|].
  now rewrite IH.
Qed.

Lemma chunks_sizes (c n : nat) (l : list R) :
  length l = (n * c)%nat -> Forall (fun v => length v = c) (chunks c n l).
Proof.
  revert l; induction n as [|n IH]; intros l Hl; simpl; constructor.
  - rewrite length_firstn. simpl in Hl. lia.
  - apply IH. rewrite length_skipn. simpl in Hl. lia.
Qed.


Lemma numel_batch (t : tensor) :
  numel (shape t) = (batch t * example_size t)%nat.
Proof.
  unfold batch, example_size. destruct (shape t); simpl; lia.
Qed.

Lemma rsum_app (a b : list R) : rsum (a ++ b) = rsum a + rsum b.
Proof. induction a; simpl; lra. Qed.

Lemma rsum_sq_nonneg (v : list R) : 0 <= rsum (map sq v).
Proof.
  induction v as [|x v IH]; simpl; [lra|].
  unfold sq at 1. pose proof (Rle_0_sqr x) as H. unfold Rsqr in H. lra.
Qed.





End TensorFacts.

(* ===================================================================== *)
(** ** Facts about vat.py *)
(* ===================================================================== *)

Module VATFacts.

Import VAT VATSpec TensorFacts.
Local Open Scope R_scope.


Lemma div_by_norm_length (v : list R) : length (div_by_norm v) = length v.
Proof. unfold div_by_norm. apply length_map. Qed.



Lemma l2norm_3_4 : l2norm [3; 4] = 5.
Proof.
  unfold l2norm. simpl. unfold sq.
  replace (3 * 3 + (4 * 4 + 0)) with (5 * 5) by lra.
  apply sqrt_square. lra.
Qed.

(** C1, as stated, fails: on a rank-2 perturbation [_l2_normalize] raises
    nothing; it hands the array back as it came, with its row of norm 5. *)
Lemma l2_normalize_rank2_is_silent :
  rank rank2_perturbation = 2%nat /\
  wf rank2_perturbation /\
  _l2_normalize rank2_perturbation = Returned rank2_perturbation /\
  (forall e, _l2_normalize rank2_perturbation <> Raised e) /\
  l2norm (example 0 rank2_perturbation) = 5.
Proof.
  repeat split; try reflexivity.
  - intros e H. discriminate H.
  - exact l2norm_3_4.
Qed.

(** C1 (amended): [_l2_normalize] never raises; a perturbation whose rank is
    neither 3 nor 4 is returned unchanged, so ranks 3 and 4 are the only ones
    it normalises. *)
Theorem l2_normalize_other_rank_unchanged (d : tensor) :
  rank d <> 3%nat -> rank d <> 4%nat ->
  _l2_normalize d = Returned d /\ (forall e, _l2_normalize d <> Raised e).
Proof.
  intros H3 H4. unfold rank in *. unfold _l2_normalize.
  apply Nat.eqb_neq in H3, H4. rewrite H3, H4.
  split; [reflexivity | intros e H; discriminate H].
Qed.

Lemma l2_normalize_other_rank_unchanged_witness :
  _l2_normalize rank2_perturbation = Returned rank2_perturbation /\
  (forall e, _l2_normalize rank2_perturbation <> Raised e).
Proof.
  apply (l2_normalize_other_rank_unchanged rank2_perturbation);
    simpl; intros H; discriminate H.
Defined.



(** *** The KL divergence from logits *)

Lemma exp_sum_pos (x : list R) : x <> [] -> 0 < rsum (map exp x).
Proof.
  destruct x as [|a x]; [congruence|]. intros _. simpl.
  assert (H : 0 <= rsum (map exp x)).
  { induction x as [|b x IH]; simpl; [lra|]. pose proof (exp_pos b). lra. }
  pose proof (exp_pos a). lra.
Qed.

(** One class: [q_i * (logp_i - logq_i) <= p_i - q_i], from [1 + t <= exp t]. *)
Lemma gibbs_term (a b x y : R) :
  0 < a -> 0 < b ->
  exp x / a * (y - ln b) - exp x / a * (x - ln a) <= exp y / b - exp x / a.
Proof.
  intros Ha Hb.
  set (t := (y - ln b) - (x - ln a)).
  assert (Ht : exp t = exp y / b * (a / exp x)).
  { unfold t.
    replace (y - ln b - (x - ln a)) with (y + (- ln b + (- x + ln a))) by ring.
    rewrite !exp_plus, !exp_Ropp, !exp_ln by assumption.
    field. pose proof (exp_pos x). repeat split; lra. }
  pose proof (exp_ineq1_le t) as Hle.
  pose proof (exp_pos x) as Hx.
  assert (Hq : 0 < exp x / a) by (apply Rdiv_lt_0_compat; assumption).
  assert (Hprod : exp x / a * exp t = exp y / b).
  { rewrite Ht. field. repeat split; lra. }
  replace (exp x / a * (y - ln b) - exp x / a * (x - ln a))
    with (exp x / a * t) by (unfold t; ring).
  nra.
Qed.

Lemma gibbs_row_general (a b : R) (x y : list R) :
  0 < a -> 0 < b -> length x = length y ->
  rsum (zip_with Rmult (map (fun xi => exp xi / a) x) (map (fun yi => yi - ln b) y))
  - rsum (zip_with Rmult (map (fun xi => exp xi / a) x) (map (fun xi => xi - ln a) x))
  <= rsum (map exp y) / b - rsum (map exp x) / a.
Proof.
  intros Ha Hb. revert y.
  induction x as [|x0 x IH]; intros [|y0 y] Hlen; simpl in Hlen; try discriminate.
  - simpl. unfold Rdiv. lra.
  - simpl. specialize (IH y ltac:(lia)).
    pose proof (gibbs_term a b x0 y0 Ha Hb) as H0.
    unfold Rdiv in *. lra.
Qed.

(** One example: the cross term never exceeds the entropy term. *)
Lemma gibbs_row (x y : list R) :
  length x = length y ->
  rsum (zip_with Rmult (softmax_row x) (log_softmax_row y))
  <= rsum (zip_with Rmult (softmax_row x) (log_softmax_row x)).
Proof.
  intros Hlen. destruct x as [|x0 x].
  - simpl. lra.
  - destruct y as [|y0 y]; [discriminate|].
    assert (Hx : 0 < rsum (map exp (x0 :: x))) by (apply exp_sum_pos; congruence).
    assert (Hy : 0 < rsum (map exp (y0 :: y))) by (apply exp_sum_pos; congruence).
    pose proof (gibbs_row_general _ _ (x0 :: x) (y0 :: y) Hx Hy Hlen) as H.
    unfold softmax_row, log_softmax_row.
    replace (rsum (map exp (y0 :: y)) / rsum (map exp (y0 :: y))) with 1 in H
      by (field; lra).
    replace (rsum (map exp (x0 :: x)) / rsum (map exp (x0 :: x))) with 1 in H
      by (field; lra).
    lra.
Qed.









(** *** The warm-up coefficient *)

Lemma unsup_warmup_coef_defined (it : Z) (w : R) (N : Z) :
  w * IZR N <> 0 ->
  unsup_warmup_coef it w N = Returned (np_clip (IZR it / (w * IZR N)) 0 1).
Proof.
  intros Hden. unfold unsup_warmup_coef, truediv.
  destruct (Req_dec_T (w * IZR N) 0) as [H0|_]; [contradiction|reflexivity].
Qed.

Lemma np_clip_clamp (x : R) : np_clip x 0 1 = clamp x 0 1.
Proof.
  unfold np_clip, clamp.
  destruct (Rlt_dec x 0) as [Hlo|Hlo].
  - rewrite Rmax_right by lra. apply Rmin_left. lra.
  - rewrite Rmax_left by lra.
    destruct (Rlt_dec 1 x) as [Hhi|Hhi]; [apply Rmin_right | apply Rmin_left]; lra.
Qed.

Lemma np_clip_ramp (x den : R) :
  0 < den -> 0 <= x ->
  np_clip (x / den) 0 1 = if Rle_dec x den then x / den else 1.
Proof.
  intros Hden Hx. unfold np_clip.
  assert (H0 : 0 <= x / den).
  { apply Rmult_le_pos; [exact Hx|]. left. now apply Rinv_0_lt_compat. }
  rewrite Rmax_left by exact H0.
  destruct (Rle_dec x den) as [Hle|Hgt].
  - apply Rmin_left.
    apply Rmult_le_reg_r with (r := den); [exact Hden|].
    unfold Rdiv. rewrite Rmult_assoc, Rinv_l by lra. lra.
  - apply Rmin_right.
    apply Rmult_le_reg_r with (r := den); [exact Hden|].
    unfold Rdiv. rewrite Rmult_assoc, Rinv_l by lra. lra.
Qed.

Lemma returns_f64_sound (x : PrimFloat.float) (o : outcome PrimFloat.float) :
  returns_f64 x o = true -> o = Returned x.
Proof.
  destruct o as [y|e]; simpl; [|discriminate].
  intros H. apply FloatAxioms.Leibniz.eqb_spec in H. now subst.
Qed.

Lemma warmup_f64_plateau_checked :
  forallb (fun k => returns_f64 Float64.one
                      (unsup_warmup_coef_f64 (400 + Z.of_nat k) Float64.lit_0_4 1000))
          (seq 0 601) = true.
Proof. vm_compute. reflexivity. Qed.

(** C2: with a non-zero divisor the coefficient of [train_step] is
    [it / (unsup_warm_up * num_train_iter)] clipped to [[0, 1]]; for a positive
    warm-up share it is the ramp [it / (unsup_warm_up * num_train_iter)] up to
    1 and then stays 1.  For [unsup_warm_up = 0.4], [num_train_iter = 1000] it
    is 0 at iteration 0, 1/2 at iteration 200 and 1 from iteration 400 on,
    over the reals and, bit for bit, in binary64. *)
Theorem unsup_warmup_coef_spec :
  (forall (it : Z) (w : R) (N : Z),
     w * IZR N <> 0 ->
     unsup_warmup_coef it w N = Returned (clamp (IZR it / (w * IZR N)) 0 1)) /\
  (forall (it : Z) (w : R) (N : Z),
     0 < w -> (0 <= it <= N)%Z -> (0 < N)%Z ->
     unsup_warmup_coef it w N =
       Returned (if Rle_dec (IZR it) (w * IZR N) then IZR it / (w * IZR N) else 1)) /\
  unsup_warmup_coef 0 0.4 1000 = Returned 0 /\
  unsup_warmup_coef 200 0.4 1000 = Returned (1 / 2) /\
  (forall it : Z, (400 <= it)%Z -> unsup_warmup_coef it 0.4 1000 = Returned 1) /\
  unsup_warmup_coef_f64 0 Float64.lit_0_4 1000 = Returned Float64.zero /\
  unsup_warmup_coef_f64 200 Float64.lit_0_4 1000 = Returned Float64.half /\
  (forall it : Z, (400 <= it <= 1000)%Z ->
     unsup_warmup_coef_f64 it Float64.lit_0_4 1000 = Returned Float64.one).
Proof.
  assert (Hramp : forall (it : Z) (w : R) (N : Z),
            0 < w -> (0 <= it)%Z -> (0 < N)%Z ->
            unsup_warmup_coef it w N =
              Returned (if Rle_dec (IZR it) (w * IZR N)
                        then IZR it / (w * IZR N) else 1)).
  { intros it w N Hw Hit HN.
    assert (HNr : 0 < IZR N) by (apply IZR_lt; exact HN).
    assert (Hden : 0 < w * IZR N) by (apply Rmult_lt_0_compat; assumption).
    rewrite unsup_warmup_coef_defined by lra.
    rewrite np_clip_ramp; [reflexivity | exact Hden | apply IZR_le; exact Hit]. }
  refine (conj _ (conj _ (conj _ (conj _ (conj _ (conj _ (conj _ _))))))).
  - intros it w N Hden. rewrite unsup_warmup_coef_defined by exact Hden.
    now rewrite np_clip_clamp.
  - intros it w N Hw [Hit _] HN. now apply Hramp.
  - rewrite Hramp by (try lra; lia).
    destruct (Rle_dec 0 (0.4 * 1000)) as [_|H]; [|exfalso; apply H; lra].
    apply f_equal. lra.
  - rewrite Hramp by (try lra; lia).
    destruct (Rle_dec 200 (0.4 * 1000)) as [_|H]; [|exfalso; apply H; lra].
    apply f_equal. lra.
  - intros it Hit. rewrite Hramp by (try lra; lia).
    assert (Hr : 400 <= IZR it) by (apply IZR_le; exact Hit).
    destruct (Rle_dec (IZR it) (0.4 * 1000)) as [Hle|_]; [|reflexivity].
    apply f_equal. replace (IZR it) with 400 by lra. lra.
  - vm_compute. reflexivity.
  - vm_compute. reflexivity.
  - intros it [Hlo Hhi]. apply returns_f64_sound.
    pose proof warmup_f64_plateau_checked as Hall.
    rewrite forallb_forall in Hall.
    replace it with (400 + Z.of_nat (Z.to_nat (it - 400)))%Z by lia.
    apply Hall. apply in_seq. lia.
Qed.

Lemma unsup_warmup_coef_spec_witness :
  unsup_warmup_coef 200 (4 / 10) 1000
  = Returned (clamp (IZR 200 / (4 / 10 * IZR 1000)) 0 1).
Proof.
  apply (proj1 unsup_warmup_coef_spec). lra.
Defined.

(** *** The adversarial search *)

Lemma l2_normalize_returns (d : tensor) : _l2_normalize d = Returned (normalized d).
Proof. reflexivity. Qed.

Ltac run_monad :=
  unfold Py.bind, Py.ret, Py.get, Py.modify, Py.lift, Py.when; simpl.

Section Search.

Context {W G : Type} (C : capability W G).

Variables (ul_x : input) (ul_y : matrix) (xi : R).
Variables (ul_x_embed : option tensor) (vat_embed : bool).
Variable at_ : tensor -> input.
Hypothesis Hat : perturbed vat_embed ul_x ul_x_embed = Returned at_.

Lemma power_round_spec (d : tensor) (s : vat W G) :
  power_round C ul_x ul_y xi ul_x_embed vat_embed d s
  = (Returned (grad_input C (delta_kl_of C ul_y at_ s) (scale xi (normalized d))),
     set_grads (gzero C) s).
Proof.
  unfold power_round, zero_grad. run_monad. rewrite Hat. reflexivity.
Qed.

Lemma power_iteration_spec (n : nat) :
  forall (d : tensor) (s : vat W G),
  exists d_prev,
    power_iteration C (S n) ul_x ul_y xi ul_x_embed vat_embed d s
    = (Returned (grad_input C (delta_kl_of C ul_y at_ s) (scale xi (normalized d_prev))),
       set_grads (gzero C) s).
Proof.
  induction n as [|n IH]; intros d s.
  - exists d. simpl. unfold Py.bind. rewrite power_round_spec. reflexivity.
  - change (power_iteration C (S (S n)) ul_x ul_y xi ul_x_embed vat_embed d s)
      with (Py.bind (power_round C ul_x ul_y xi ul_x_embed vat_embed d)
              (fun d1 => power_iteration C (S n) ul_x ul_y xi ul_x_embed vat_embed d1) s).
    unfold Py.bind at 1. rewrite power_round_spec.
    destruct (IH (grad_input C (delta_kl_of C ul_y at_ s) (scale xi (normalized d)))
                 (set_grads (gzero C) s)) as [d_prev Hd].
    exists d_prev. rewrite Hd. reflexivity.
Qed.

Lemma vat_loss_spec (eps : R) (num_iters : Z) (size : list nat) (s : vat W G) :
  (if vat_embed then size_of_embed ul_x_embed else size_of ul_x) = Returned size ->
  (1 <= num_iters)%Z ->
  exists d_last,
    vat_loss C ul_x ul_y xi eps num_iters ul_x_embed vat_embed s
    = (Returned (kl_div_with_logit ul_y
                   (forward C (weights s) (bn_frozen s)
                      (at_ (scale eps (normalized d_last))))),
       after_search C s).
Proof.
  intros Hsize Hn. unfold vat_loss.
  destruct (Z.to_nat num_iters) as [|n] eqn:En; [lia|].
  destruct (power_iteration_spec n (normal_ C (rng s) size) (set_rng (S (rng s)) s))
    as [d_prev Hd].
  exists (grad_input C (delta_kl_of C ul_y at_ (set_rng (S (rng s)) s)) (scale xi (normalized d_prev))).
  unfold Py.bind at 1. unfold Py.lift at 1. rewrite Hsize.
  unfold Py.bind at 1. unfold draw_normal at 1.
  unfold Py.bind at 1. rewrite Hd.
  run_monad. rewrite Hat. reflexivity.
Qed.

End Search.

(** *** [train_step] *)

Lemma accepted_probe (vat_embed : bool) (x : input) (e : tensor) :
  accepts vat_embed x = true ->
  let ul_x_embed := if vat_embed then Some e else None in
  exists size at_,
    (if vat_embed then size_of_embed ul_x_embed else size_of x) = Returned size /\
    perturbed vat_embed x ul_x_embed = Returned at_.
Proof.
  destruct vat_embed, x; simpl; intros H; try discriminate H;
    eexists _, _; split; reflexivity.
Qed.

Lemma train_step_run
  (W G : Type) (C : capability W G) (s : vat W G)
  (x_lb : input) (y_lb : list Z) (x_ulb_w : input) :
  accepts (vat_embed s) x_ulb_w = true ->
  unsup_warm_up s * IZR (num_train_iter s) <> 0 ->
  exists (ul_y : matrix) (adversarial_loss warmup_coefficient : R),
    let s1 := after_search C (set_bn_frozen true s) in
    let supervised_loss := ce_loss C (forward C (weights s) (bn_frozen s) x_lb) y_lb in
    let entropy := entropy_loss ul_y in
    let total_loss :=
      supervised_loss + lambda_u s * adversarial_loss * warmup_coefficient
      + lambda_ent s * entropy in
    ul_y = (if vat_embed s
            then snd (forward_embed C (weights s) true x_ulb_w)
            else forward C (weights s) true x_ulb_w) /\
    vat_loss C x_ulb_w ul_y default_xi (vat_eps s) default_num_iters
      (if vat_embed s then Some (fst (forward_embed C (weights s) true x_ulb_w))
       else None)
      (vat_embed s) (set_bn_frozen true s) = (Returned adversarial_loss, s1) /\
    unsup_warmup_coef (it s) (unsup_warm_up s) (num_train_iter s)
      = Returned warmup_coefficient /\
    train_step C x_lb y_lb x_ulb_w s
    = (Returned [("train/sup_loss"%string, supervised_loss);
                 ("train/unsup_loss"%string, adversarial_loss);
                 ("train/loss_entmin"%string, entropy);
                 ("train/total_loss"%string, total_loss)],
       parameter_update C total_loss (set_bn_frozen false s1)).
Proof.
  intros Hacc Hden.
  pose proof (unsup_warmup_coef_defined (it s) _ _ Hden) as Hwarm.
  destruct (accepted_probe (vat_embed s) x_ulb_w
              (fst (forward_embed C (weights s) true x_ulb_w)) Hacc)
    as (size & at_ & Hsize & Hat).
  simpl in Hsize, Hat.
  set (ul_y := if vat_embed s
               then snd (forward_embed C (weights s) true x_ulb_w)
               else forward C (weights s) true x_ulb_w).
  destruct (vat_loss_spec C x_ulb_w ul_y default_xi _ (vat_embed s) at_ Hat
              (vat_eps s) default_num_iters size (set_bn_frozen true s) Hsize)
    as [d_last Hv]; [unfold default_num_iters; lia|].
  eexists ul_y, _, _. cbv zeta.
  split; [reflexivity|]. split; [exact Hv|]. split; [exact Hwarm|].
  unfold train_step, freeze_bn, unfreeze_bn.
  unfold Py.bind at 1. unfold Py.get at 1.
  unfold Py.bind at 1.
  subst ul_y. destruct (vat_embed s) eqn:Eve.
  - unfold Py.bind at 1. unfold Py.bind at 1. unfold Py.modify at 1.
    unfold Py.bind at 1. unfold Py.get at 1.
    change (weights (set_bn_frozen true s)) with (weights s).
    change (bn_frozen (set_bn_frozen true s)) with true.
    change (vat_eps (set_bn_frozen true s)) with (vat_eps s).
    destruct (forward_embed C (weights s) true x_ulb_w) as [emb logits] eqn:Efe.
    simpl in Hv. unfold Py.bind at 1. rewrite Hv.
    run_monad. rewrite Hwarm. reflexivity.
  - unfold Py.bind at 1. unfold Py.bind at 1. unfold Py.modify at 1.
    unfold Py.bind at 1. unfold Py.get at 1.
    change (weights (set_bn_frozen true s)) with (weights s).
    change (bn_frozen (set_bn_frozen true s)) with true.
    change (vat_eps (set_bn_frozen true s)) with (vat_eps s).
    unfold Py.bind at 1. rewrite Hv.
    run_monad. rewrite Hwarm. reflexivity.
Qed.

(** C6: in every round of the search the new [d] is the gradient of
    [KL(ul_y || y_hat)] with respect to [d], taken at the normalised and
    scaled old [d], and the round ends with the parameters' gradient buffers
    cleared and nothing else of the algorithm's state changed; so after any
    [num_iters >= 1] rounds, when [vat_loss] returns, and when [train_step]
    hands its loss to [parameter_update], the buffers hold no gradient of the
    search. *)
Theorem power_iteration_replaces_d_and_clears_grads
  (W G : Type) (C : capability W G) (ul_x : input) (ul_y : matrix) (xi : R)
  (ul_x_embed : option tensor) (vat_embed : bool) (at_ : tensor -> input) :
  perturbed vat_embed ul_x ul_x_embed = Returned at_ ->
  (forall (d : tensor) (s : vat W G),
     power_round C ul_x ul_y xi ul_x_embed vat_embed d s
     = (Returned (grad_input C (delta_kl_of C ul_y at_ s) (scale xi (normalized d))),
        set_grads (gzero C) s)) /\
  (forall (num_iters : nat) (d : tensor) (s : vat W G),
     (1 <= num_iters)%nat ->
     exists d_prev,
       power_iteration C num_iters ul_x ul_y xi ul_x_embed vat_embed d s
       = (Returned (grad_input C (delta_kl_of C ul_y at_ s)
                      (scale xi (normalized d_prev))),
          set_grads (gzero C) s)) /\
  (forall (eps : R) (num_iters : Z) (size : list nat) (s : vat W G),
     (if vat_embed then size_of_embed ul_x_embed else size_of ul_x) = Returned size ->
     (1 <= num_iters)%Z ->
     exists (loss : R) (s' : vat W G),
       vat_loss C ul_x ul_y xi eps num_iters ul_x_embed vat_embed s
       = (Returned loss, s') /\
       grads s' = gzero C /\ weights s' = weights s /\
       bn_frozen s' = bn_frozen s /\ it s' = it s) /\
  (forall (s : vat W G) (x_lb : input) (y_lb : list Z) (x_ulb_w : input),
     accepts (VAT.vat_embed s) x_ulb_w = true ->
     unsup_warm_up s * IZR (num_train_iter s) <> 0 ->
     exists (tb_dict : list (string * R)) (total_loss : R) (s1 : vat W G),
       train_step C x_lb y_lb x_ulb_w s
       = (Returned tb_dict, parameter_update C total_loss s1) /\
       grads s1 = gzero C).
Proof.
  intros Hat. split; [|split; [|split]].
  - intros d s. now apply power_round_spec.
  - intros [|n] d s Hn; [lia|]. now apply power_iteration_spec.
  - intros eps num_iters size s Hsize Hn.
    destruct (vat_loss_spec C ul_x ul_y xi ul_x_embed vat_embed at_ Hat
                eps num_iters size s Hsize Hn) as [d_last Hv].
    eexists _, _. split; [exact Hv|]. repeat split.
  - intros s x_lb y_lb x_ulb_w Hacc Hden.
    destruct (train_step_run W G C s x_lb y_lb x_ulb_w Hacc Hden)
      as (y & adv & warm & _ & _ & _ & Hrun).
    eexists _, _, _. split; [exact Hrun | reflexivity].
Qed.

Lemma power_iteration_replaces_d_and_clears_grads_witness :
  exists d_prev,
    power_iteration toy_capability 1 (Dense rank3_perturbation) [[0; 0]] default_xi
      None false rank3_perturbation toy_state
    = (Returned (grad_input toy_capability
                   (delta_kl_of toy_capability [[0; 0]]
                      (fun d => Dense (add rank3_perturbation d)) toy_state)
                   (scale default_xi (normalized d_prev))),
       set_grads (gzero toy_capability) toy_state).
Proof.
  apply (proj1 (proj2 (power_iteration_replaces_d_and_clears_grads
                         R R toy_capability (Dense rank3_perturbation) [[0; 0]]
                         default_xi None false
                         (fun d => Dense (add rank3_perturbation d)) eq_refl))).
  lia.
Defined.

(** *** The objective of [train_step] *)

(** C3: when the unlabeled batch fits the mode and the warm-up divisor is not
    zero, [train_step] returns, and the loss it hands to [parameter_update]
    and reports as [train/total_loss] is
    [sup_loss + lambda_u * unsup_loss * unsup_warmup + lambda_ent * loss_entmin]:
    the cross-entropy on the labeled batch, the value of [vat_loss] scaled by
    the weight and the warm-up coefficient, and the entropy of the unlabeled
    predictions scaled by its weight alone. *)
Theorem train_step_total_loss
  (W G : Type) (C : capability W G) (s : vat W G)
  (x_lb : input) (y_lb : list Z) (x_ulb_w : input) :
  accepts (vat_embed s) x_ulb_w = true ->
  unsup_warm_up s * IZR (num_train_iter s) <> 0 ->
  exists (ul_y : matrix) (adversarial_loss warmup_coefficient : R) (s1 : vat W G),
    let supervised_loss := ce_loss C (forward C (weights s) (bn_frozen s) x_lb) y_lb in
    let entropy := entropy_loss ul_y in
    let total_loss :=
      supervised_loss + lambda_u s * adversarial_loss * warmup_coefficient
      + lambda_ent s * entropy in
    ul_y = (if vat_embed s
            then snd (forward_embed C (weights s) true x_ulb_w)
            else forward C (weights s) true x_ulb_w) /\
    vat_loss C x_ulb_w ul_y default_xi (vat_eps s) default_num_iters
      (if vat_embed s then Some (fst (forward_embed C (weights s) true x_ulb_w))
       else None)
      (vat_embed s) (set_bn_frozen true s) = (Returned adversarial_loss, s1) /\
    unsup_warmup_coef (it s) (unsup_warm_up s) (num_train_iter s)
      = Returned warmup_coefficient /\
    train_step C x_lb y_lb x_ulb_w s
    = (Returned [("train/sup_loss"%string, supervised_loss);
                 ("train/unsup_loss"%string, adversarial_loss);
                 ("train/loss_entmin"%string, entropy);
                 ("train/total_loss"%string, total_loss)],
       parameter_update C total_loss (set_bn_frozen false s1)).
Proof.
  intros Hacc Hden.
  destruct (train_step_run W G C s x_lb y_lb x_ulb_w Hacc Hden)
    as (ul_y & adv & warm & Hrun).
  exists ul_y, adv, warm, (after_search C (set_bn_frozen true s)).
  exact Hrun.
Qed.

Lemma train_step_total_loss_witness :
  exists (ul_y : matrix) (adversarial_loss warmup_coefficient : R) (s1 : vat R R),
    let supervised_loss := 0 in
    let entropy := entropy_loss ul_y in
    let total_loss :=
      supervised_loss + 1 * adversarial_loss * warmup_coefficient
      + 6 / 100 * entropy in
    ul_y = [[0; 0]] /\
    vat_loss toy_capability (Dense rank3_perturbation) ul_y default_xi 6
      default_num_iters None false (set_bn_frozen true toy_state)
      = (Returned adversarial_loss, s1) /\
    unsup_warmup_coef 200 (4 / 10) 1000 = Returned warmup_coefficient /\
    train_step toy_capability (Dense rank3_perturbation) [0%Z]
      (Dense rank3_perturbation) toy_state
    = (Returned [("train/sup_loss"%string, supervised_loss);
                 ("train/unsup_loss"%string, adversarial_loss);
                 ("train/loss_entmin"%string, entropy);
                 ("train/total_loss"%string, total_loss)],
       parameter_update toy_capability total_loss (set_bn_frozen false s1)).
Proof.
  apply (train_step_total_loss R R toy_capability toy_state
           (Dense rank3_perturbation) [0%Z] (Dense rank3_perturbation)).
  - reflexivity.
  - simpl. lra.
Defined.

End VATFacts.

(* ===================================================================== *)
(** ** Facts about train.py *)
(* ===================================================================== *)

Module TrainFacts.

Import Train TrainSpec.
Local Open Scope string_scope.
Local Open Scope Z_scope.

(** *** The monad *)

Lemma bind_assoc {S A B D} (m : M S A) (k : A -> M S B) (h : B -> M S D) (s : S) :
  Py.bind (Py.bind m k) h s = Py.bind m (fun x => Py.bind (k x) h) s.
Proof.
  unfold Py.bind. destruct (m s) as [[a|e] s']; reflexivity.
Qed.

Lemma quiet_ret {A} (a : A) : quiet (Py.ret a).
Proof. intros w. simpl. split; [reflexivity|]. exists []. now rewrite app_nil_r. Qed.

Lemma quiet_raise {A} (e : exn) : quiet (@Py.raise world A e).
Proof. intros w. simpl. split; [reflexivity|]. exists []. now rewrite app_nil_r. Qed.

Lemma quiet_lift {A} (o : outcome A) : quiet (@Py.lift world A o).
Proof. intros w. simpl. split; [reflexivity|]. exists []. now rewrite app_nil_r. Qed.

Lemma quiet_get_args : quiet get_args.
Proof. intros w. simpl. split; [reflexivity|]. exists []. now rewrite app_nil_r. Qed.

Lemma quiet_get_fs : quiet get_fs.
Proof. intros w. simpl. split; [reflexivity|]. exists []. now rewrite app_nil_r. Qed.

Lemma quiet_get_model : quiet get_model.
Proof.
  intros w. unfold get_model. destruct (w_model w); simpl;
    (split; [reflexivity|]; exists []; now rewrite app_nil_r).
Qed.

Lemma quiet_modify_args (f : args -> args) : quiet (modify_args f).
Proof. intros w. simpl. split; [reflexivity|]. exists []. now rewrite app_nil_r. Qed.

Lemma quiet_set_model (m : ssl_algorithm) : quiet (set_model m).
Proof. intros w. simpl. split; [reflexivity|]. exists []. now rewrite app_nil_r. Qed.

Lemma quiet_emit (e : event) : quiet (emit e).
Proof. intros w. simpl. split; [reflexivity|]. now exists [e]. Qed.

Lemma quiet_bind {A B} (m : M world A) (k : A -> M world B) :
  quiet m -> (forall a, quiet (k a)) -> quiet (Py.bind m k).
Proof.
  intros Hm Hk w. unfold Py.bind. specialize (Hm w).
  destruct (m w) as [[a|e] w1]; simpl in Hm.
  - destruct Hm as [Hfs [t Ht]]. specialize (Hk a w1).
    destruct Hk as [Hfs' [t' Ht']]. split; [congruence|].
    exists (t ++ t')%list. rewrite Ht', Ht. now rewrite app_assoc.
  - exact Hm.
Qed.

Lemma quiet_try_except {A} (body handler : M world A) :
  quiet body -> quiet handler -> quiet (Py.try_except body handler).
Proof.
  intros Hb Hh w. unfold Py.try_except. specialize (Hb w).
  destruct (body w) as [[a|e] w1]; simpl in Hb; [exact Hb|].
  destruct Hb as [Hfs [t Ht]]. specialize (Hh w1).
  destruct Hh as [Hfs' [t' Ht']]. split; [congruence|].
  exists (t ++ t')%list. rewrite Ht', Ht. now rewrite app_assoc.
Qed.

Lemma quiet_when (c : bool) (m : M world unit) : quiet m -> quiet (Py.when c m).
Proof. intros Hm. destruct c; simpl; [exact Hm | apply quiet_ret]. Qed.

Lemma quiet_assert (c : bool) (msg : string) : quiet (assert_ c msg).
Proof. destruct c; simpl; [apply quiet_ret | apply quiet_raise]. Qed.

Create HintDb quiet.

#[local] Hint Resolve quiet_ret quiet_raise quiet_lift quiet_get_args quiet_get_fs
  quiet_get_model quiet_modify_args quiet_set_model quiet_emit quiet_assert : quiet.

Ltac quiet_step :=
  match goal with
  | |- quiet (Py.bind _ _) => apply quiet_bind; [|intros]
  | |- quiet (Py.when _ _) => apply quiet_when
  | |- quiet (Py.try_except _ _) => apply quiet_try_except
  | |- quiet (if ?c then _ else _) => destruct c
  | |- quiet (match ?x with _ => _ end) => destruct x
  | |- quiet (let '(_, _) := ?x in _) => destruct x
  | |- quiet _ => solve [auto with quiet]
  end.

Ltac quiet_all := repeat quiet_step.

Section Frame.

Variable E : env.

Lemma quiet_call_load_model (p : string) : quiet (call_load_model E p).
Proof. unfold call_load_model. quiet_all. Qed.

Lemma quiet_log_results (r : list (string * string)) : quiet (log_results r).
Proof.
  induction r as [|[key item] r IH]; simpl; [apply quiet_ret|].
  apply quiet_bind; [apply quiet_emit | intros; exact IH].
Qed.

Lemma quiet_main_worker (g : gpu_arg) (n : Z) : quiet (main_worker E g n).
Proof.
  pose proof quiet_call_load_model. pose proof quiet_log_results.
  unfold main_worker, setup_distributed, set_logger, construct_dataset_and_algorithm,
    set_devices, construct_loaders, resume_checkpoint, run_training.
  quiet_all.
Qed.

Lemma quiet_check_resume_args : quiet (check_resume_args E).
Proof. unfold check_resume_args. quiet_all. Qed.

Lemma quiet_launch : quiet (launch E).
Proof.
  pose proof quiet_main_worker.
  unfold launch. quiet_all.
Qed.

End Frame.

(** *** The iteration budget *)

Section Main.

Variable E : env.

Lemma check_iteration_budget_ok (w : world) :
  epoch (w_args w) <> 0 ->
  num_train_iter (w_args w) mod epoch (w_args w) = 0 ->
  check_iteration_budget w = (Returned tt, w).
Proof.
  intros He Hm. unfold check_iteration_budget, py_mod.
  unfold Py.bind, get_args, Py.lift.
  apply Z.eqb_neq in He. rewrite He, Hm. reflexivity.
Qed.

Lemma check_iteration_budget_zero_epoch (w : world) :
  epoch (w_args w) = 0 ->
  check_iteration_budget w = (Raised ZeroDivisionError, w).
Proof.
  intros He. unfold check_iteration_budget, py_mod.
  unfold Py.bind, get_args, Py.lift. rewrite He. reflexivity.
Qed.

Lemma check_iteration_budget_fails (w : world) :
  epoch (w_args w) <> 0 ->
  num_train_iter (w_args w) mod epoch (w_args w) <> 0 ->
  check_iteration_budget w
  = (Raised (AssertionError
       ("# total training iter. " ++ str (num_train_iter (w_args w))
        ++ " is not divisible by # epochs " ++ str (epoch (w_args w)))), w).
Proof.
  intros He Hm. unfold check_iteration_budget, py_mod.
  unfold Py.bind, get_args, Py.lift.
  apply Z.eqb_neq in He. rewrite He.
  apply Z.eqb_neq in Hm. rewrite Hm. reflexivity.
Qed.

(** *** The save path *)

Lemma path_exists_after_rmtree (p : string) (fs : list string) :
  path_exists p (filter (fun q => negb (under p q)) fs) = false.
Proof.
  unfold path_exists. induction fs as [|q fs IH]; simpl; [reflexivity|].
  destruct (under p q) eqn:Hu; simpl; [exact IH|].
  rewrite IH. unfold under in Hu. apply orb_false_elim in Hu as [Hq _].
  rewrite String.eqb_sym. rewrite Hq. reflexivity.
Qed.

Lemma prepare_save_path_deletes (w : world) :
  path_exists (save_path_of (w_args w)) (w_fs w) = true ->
  overwrite (w_args w) = true -> resume (w_args w) = false ->
  prepare_save_path w = (Returned tt, after_rmtree (save_path_of (w_args w)) w).
Proof.
  intros Hex Hov Hres. unfold prepare_save_path, save_path_of in *.
  unfold Py.bind at 1. unfold get_args at 1.
  unfold Py.bind at 1. unfold get_fs at 1.
  rewrite Hex, Hov, Hres. simpl.
  unfold Py.bind, rmtree, get_fs, set_fs, emit, Py.modify, Py.bind. simpl.
  rewrite path_exists_after_rmtree. reflexivity.
Qed.

Lemma prepare_save_path_refuses (w : world) :
  path_exists (save_path_of (w_args w)) (w_fs w) = true ->
  overwrite (w_args w) = false ->
  prepare_save_path w
  = (Raised (Exception ("already existing model: " ++ save_path_of (w_args w))), w).
Proof.
  intros Hex Hov. unfold prepare_save_path, save_path_of in *.
  unfold Py.bind, get_args, get_fs. rewrite Hov, Hex. simpl.
  rewrite Hex. reflexivity.
Qed.

Lemma prepare_save_path_returns (w : world) :
  overwrite (w_args w) = true ->
  exists w', prepare_save_path w = (Returned tt, w').
Proof.
  intros Hov.
  destruct (path_exists (save_path_of (w_args w)) (w_fs w)) eqn:Hex.
  - destruct (resume (w_args w)) eqn:Hres.
    + exists w. unfold prepare_save_path, save_path_of in *.
      unfold Py.bind, get_args, get_fs. rewrite Hov, Hres, Hex. simpl.
      rewrite andb_false_r. reflexivity.
    + eexists. now apply prepare_save_path_deletes.
  - exists w. unfold prepare_save_path, save_path_of in *.
    unfold Py.bind, get_args, get_fs. rewrite Hex. simpl.
    rewrite Hex. reflexivity.
Qed.

Lemma main_after_delete (w : world) :
  epoch (w_args w) <> 0 ->
  num_train_iter (w_args w) mod epoch (w_args w) = 0 ->
  path_exists (save_path_of (w_args w)) (w_fs w) = true ->
  overwrite (w_args w) = true -> resume (w_args w) = false ->
  main E w
  = Py.bind (check_resume_args E) (fun _ => launch E)
      (after_rmtree (save_path_of (w_args w)) w).
Proof.
  intros He Hm Hex Hov Hres. unfold main.
  unfold Py.bind at 1. rewrite check_iteration_budget_ok by assumption.
  unfold Py.bind at 1. rewrite prepare_save_path_deletes by assumption.
  reflexivity.
Qed.

Lemma main_deletes_existing_save_path (w : world) :
  epoch (w_args w) <> 0 ->
  num_train_iter (w_args w) mod epoch (w_args w) = 0 ->
  path_exists (save_path_of (w_args w)) (w_fs w) = true ->
  overwrite (w_args w) = true -> resume (w_args w) = false ->
  exists t,
    w_fs (snd (main E w))
      = filter (fun q => negb (under (save_path_of (w_args w)) q)) (w_fs w) /\
    path_exists (save_path_of (w_args w)) (w_fs (snd (main E w))) = false /\
    w_trace (snd (main E w))
      = (w_trace w ++ Rmtree (save_path_of (w_args w)) :: t)%list.
Proof.
  intros He Hm Hex Hov Hres.
  rewrite main_after_delete by assumption.
  assert (Hq : quiet (Py.bind (check_resume_args E) (fun _ => launch E))).
  { apply quiet_bind; [apply quiet_check_resume_args | intros; apply quiet_launch]. }
  destruct (Hq (after_rmtree (save_path_of (w_args w)) w)) as [Hfs [t Ht]].
  exists t. rewrite Hfs, Ht. simpl. split; [reflexivity|]. split.
  - apply path_exists_after_rmtree.
  - now rewrite <- app_assoc.
Qed.

End Main.

(** *** Claims about [main] *)

(** C7: when [num_train_iter] is not a multiple of [epoch], [main] raises the
    assertion error of its first statement and leaves the world as it found
    it: no event, no change to the file system or to [args]. *)
Theorem main_rejects_indivisible_budget (E : env) (w : world) :
  epoch (w_args w) <> 0 ->
  num_train_iter (w_args w) mod epoch (w_args w) <> 0 ->
  main E w
  = (Raised (AssertionError
       ("# total training iter. " ++ str (num_train_iter (w_args w))
        ++ " is not divisible by # epochs " ++ str (epoch (w_args w)))), w).
Proof.
  intros He Hm. unfold main. unfold Py.bind at 1.
  rewrite check_iteration_budget_fails by assumption. reflexivity.
Qed.

Lemma main_rejects_indivisible_budget_witness :
  main demo_env (world_of args_100_7 ["./saved_models/fixmatch"])
  = (Raised (AssertionError
       "# total training iter. 100 is not divisible by # epochs 7"),
     world_of args_100_7 ["./saved_models/fixmatch"]).
Proof.
  apply (main_rejects_indivisible_budget demo_env
           (world_of args_100_7 ["./saved_models/fixmatch"]));
    simpl; intros H; discriminate H.
Defined.

(** C10: if the save path exists when [main] starts, then with [overwrite]
    on and [resume] off its first effect is to delete the path and all below
    it, before anything else runs; with [overwrite] off [main] raises and the
    world is untouched; the parser of train.py yields [overwrite = True]
    whatever flags are given, and with [overwrite] on the save-path check
    cannot raise, so under the default arguments an existing save directory
    is deleted. *)
Theorem save_path_overwrite_policy (E : env) :
  (forall w : world,
     epoch (w_args w) <> 0 ->
     num_train_iter (w_args w) mod epoch (w_args w) = 0 ->
     path_exists (save_path_of (w_args w)) (w_fs w) = true ->
     overwrite (w_args w) = true -> resume (w_args w) = false ->
     exists t,
       w_fs (snd (main E w))
         = filter (fun q => negb (under (save_path_of (w_args w)) q)) (w_fs w) /\
       path_exists (save_path_of (w_args w)) (w_fs (snd (main E w))) = false /\
       w_trace (snd (main E w))
         = (w_trace w ++ Rmtree (save_path_of (w_args w)) :: t)%list) /\
  (forall w : world,
     path_exists (save_path_of (w_args w)) (w_fs w) = true ->
     overwrite (w_args w) = false ->
     (exists e, main E w = (Raised e, w)) /\
     (epoch (w_args w) <> 0 ->
      num_train_iter (w_args w) mod epoch (w_args w) = 0 ->
      main E w
      = (Raised (Exception ("already existing model: " ++ save_path_of (w_args w))),
         w))) /\
  (forall (given_resume given_overwrite given_use_tensorboard : bool) (port : Z),
     overwrite (parse_args given_resume given_overwrite given_use_tensorboard port)
     = true) /\
  (forall w : world,
     overwrite (w_args w) = true ->
     exists w', prepare_save_path w = (Returned tt, w')) /\
  (forall (port : Z) (fs : list string),
     path_exists "./saved_models/fixmatch" fs = true ->
     exists t,
       w_trace (snd (main E (world_of (default_args port) fs)))
         = Rmtree "./saved_models/fixmatch" :: t /\
       path_exists "./saved_models/fixmatch"
         (w_fs (snd (main E (world_of (default_args port) fs)))) = false).
Proof.
  refine (conj _ (conj _ (conj _ (conj _ _)))).
  - intros w. apply main_deletes_existing_save_path.
  - intros w Hex Hov.
    assert (Hdiv : epoch (w_args w) <> 0 ->
                   num_train_iter (w_args w) mod epoch (w_args w) = 0 ->
                   main E w
                   = (Raised (Exception ("already existing model: "
                                         ++ save_path_of (w_args w))), w)).
    { intros He Hm. unfold main. unfold Py.bind at 1.
      rewrite check_iteration_budget_ok by assumption.
      unfold Py.bind at 1. rewrite prepare_save_path_refuses by assumption.
      reflexivity. }
    split; [|exact Hdiv].
    destruct (Z.eq_dec (epoch (w_args w)) 0) as [He|He].
    + eexists. unfold main. unfold Py.bind at 1.
      rewrite check_iteration_budget_zero_epoch by assumption. reflexivity.
    + destruct (Z.eq_dec (num_train_iter (w_args w) mod epoch (w_args w)) 0)
        as [Hm|Hm].
      * eexists. now apply Hdiv.
      * eexists. unfold main. unfold Py.bind at 1.
        rewrite check_iteration_budget_fails by assumption. reflexivity.
  - intros gr go gt port. simpl. unfold store_true. destruct go; reflexivity.
  - intros w. apply prepare_save_path_returns.
  - intros port fs Hex.
    destruct (main_deletes_existing_save_path E (world_of (default_args port) fs))
      as [t (_ & Hgone & Ht)]; try reflexivity; try exact Hex.
    + simpl. discriminate.
    + exists t. split; [exact Ht | exact Hgone].
Qed.

Lemma save_path_overwrite_policy_witness :
  exists e,
    main demo_env (world_of args_no_overwrite ["./saved_models/fixmatch"])
    = (Raised e, world_of args_no_overwrite ["./saved_models/fixmatch"]).
Proof.
  apply (proj1 (proj2 (save_path_overwrite_policy demo_env))
           (world_of args_no_overwrite ["./saved_models/fixmatch"])
           eq_refl eq_refl).
Defined.

(** *** The worker *)

Section Worker.

Variable E : env.

Lemma main_worker_split (g : gpu_arg) (n : Z) (w : world) :
  main_worker E g n w
  = Py.bind (worker_prefix E g n)
      (fun _ => Py.bind (resume_checkpoint E) (fun _ => run_training E n)) w.
Proof.
  unfold main_worker, worker_prefix, Py.bind.
  destruct (setup_distributed E g n w) as [[[]|e1] w1]; [|reflexivity].
  destruct (set_logger n w1) as [[[]|e2] w2]; [|reflexivity].
  destruct (construct_dataset_and_algorithm E w2) as [[[]|e3] w3]; [|reflexivity].
  destruct (set_devices E n w3) as [[[]|e4] w4]; [|reflexivity].
  destruct (construct_loaders E w4) as [[[]|e5] w5]; reflexivity.
Qed.

Lemma log_results_run (r : list (string * string)) (w : world) :
  log_results r w
  = (Returned tt,
     add_events (map (fun kv => LogInfo ("Model result - " ++ fst kv ++ " : " ++ snd kv)) r) w).
Proof.
  revert w. induction r as [|[key item] r IH]; intros w; simpl.
  - unfold Py.ret, add_events. simpl. rewrite app_nil_r. now destruct w.
  - unfold Py.bind, emit, Py.modify. rewrite IH. unfold add_events. simpl.
    now rewrite <- app_assoc.
Qed.

Lemma set_devices_distributed_index (n g : Z) (w : world) :
  cuda_is_available E = true ->
  distributed (w_args w) = true -> gpu (w_args w) = GpuIndex g -> n <> 0 ->
  set_devices E n w
  = (Returned tt,
     mk_world (set_batch_size (Z.quot (batch_size (w_args w)) n) (w_args w))
       (w_fs w) (w_model w)
       (w_trace w ++
        [CudaIsAvailable; CudaSetDevice g; ModelCuda (Some g); ConvertSyncBatchNorm;
         WrapDistributedDataParallel (find_unused_parameters (w_args w)) (Some g);
         LogInfo "model_arch: "; LogInfo "Arguments: "])%list).
Proof.
  intros Hc Hd Hg Hn. unfold set_devices, int_truediv.
  unfold Py.bind, get_args, emit, Py.modify, Py.lift, modify_args. simpl.
  rewrite Hc, Hd, Hg. simpl.
  apply Z.eqb_neq in Hn. rewrite Hn. simpl.
  rewrite <- !app_assoc. reflexivity.
Qed.

Lemma construct_loaders_run (w : world) :
  construct_loaders E w
  = (Returned tt,
     add_events
       ([GetDataLoader "train_lb" (batch_size (w_args w))
           (Some (train_sampler (w_args w))) (num_workers (w_args w))
           (Some (distributed (w_args w)));
         GetDataLoader "train_ulb" (batch_size (w_args w) * uratio (w_args w))
           (Some (train_sampler (w_args w))) (2 * num_workers (w_args w))
           (Some (distributed (w_args w)));
         GetDataLoader "eval" (eval_batch_size (w_args w)) None
           (num_workers (w_args w)) None]
        ++ (if has_test E
            then [GetDataLoader "test" (eval_batch_size (w_args w)) None
                    (num_workers (w_args w)) None]
            else [])
        ++ [SetDataLoader; LogInfo "Create train and test data loaders"]) w).
Proof.
  unfold construct_loaders, add_events.
  unfold Py.bind, get_args, emit, Py.modify, Py.when. simpl.
  destruct (has_test E); simpl; rewrite <- !app_assoc; reflexivity.
Qed.


Lemma run_training_returns (n : Z) (w : world) (m : ssl_algorithm) :
  w_model w = Some m ->
  n <> 0 ->
  exists w' post,
    run_training E n w = (Returned tt, w') /\
    w_args w' = w_args w /\
    w_trace w'
    = (w_trace w
       ++ (if alg_has_warmup m then [LogInfo "Warmup stage"; AlgWarmup] else [])
       ++ [LogInfo "Model training"; AlgTrain (alg_it m)] ++ post)%list.
Proof.
  intros Hm Hn. unfold run_training.
  unfold Py.bind at 1. unfold get_model at 1. rewrite Hm.
  set (pre := (if alg_has_warmup m then [LogInfo "Warmup stage"; AlgWarmup] else [])).
  assert (Hpre : Py.when (alg_has_warmup m)
                   (Py.bind (emit (LogInfo "Warmup stage")) (fun _ => emit AlgWarmup)) w
                 = (Returned tt, add_events pre w)).
  { unfold pre, add_events. destruct (alg_has_warmup m); simpl.
    - unfold Py.bind, emit, Py.modify. simpl. now rewrite <- app_assoc.
    - unfold Py.ret. rewrite app_nil_r. now destruct w. }
  unfold Py.bind at 1. rewrite Hpre.
  unfold Py.bind at 1. unfold emit at 1, Py.modify at 1.
  unfold Py.bind at 1. unfold get_model at 1. simpl w_model. rewrite Hm.
  unfold Py.bind at 1. unfold emit at 1, Py.modify at 1.
  destruct (train E m) as [result m'] eqn:Htrain.
  unfold Py.bind at 1. unfold set_model at 1, Py.modify at 1.
  unfold Py.bind at 1. rewrite log_results_run.
  apply Z.eqb_neq in Hn.
  destruct (alg_has_finetune m'), (multiprocessing_distributed (w_args w)) eqn:Hmpd;
    unfold Py.bind, Py.when, get_args, emit, Py.modify, Py.ret, Py.lift, py_mod;
    simpl; rewrite ?Hmpd; simpl; rewrite ?Hn; simpl;
    try destruct (rank (w_args w) mod n =? 0); simpl;
    eexists _, _; (split; [reflexivity|]); (split; [reflexivity|]);
    rewrite <- !app_assoc; simpl; repeat f_equal.
Qed.

End Worker.

(** *** Claims about [main_worker] *)



(** C9 fails on the code: in a distributed launch with a device index only
    the batch size is divided by the number of devices per node; the loaders
    are built with the per-node [num_workers] ([train_lb]) and twice that
    ([train_ulb]). *)
Theorem distributed_loaders_keep_node_workers
  (E : env) (n g : Z) (w : world) :
  cuda_is_available E = true ->
  distributed (w_args w) = true -> gpu (w_args w) = GpuIndex g -> n <> 0 ->
  exists w',
    Py.bind (set_devices E n) (fun _ => construct_loaders E) w = (Returned tt, w') /\
    batch_size (w_args w') = Z.quot (batch_size (w_args w)) n /\
    num_workers (w_args w') = num_workers (w_args w) /\
    firstn 2 (filter is_data_loader (skipn (length (w_trace w)) (w_trace w')))
    = [GetDataLoader "train_lb" (Z.quot (batch_size (w_args w)) n)
         (Some (train_sampler (w_args w))) (num_workers (w_args w)) (Some true);
       GetDataLoader "train_ulb" (Z.quot (batch_size (w_args w)) n * uratio (w_args w))
         (Some (train_sampler (w_args w))) (2 * num_workers (w_args w)) (Some true)].
Proof.
  intros Hc Hd Hg Hn. eexists. split; [|split; [|split]].
  - unfold Py.bind. rewrite (set_devices_distributed_index E n g w Hc Hd Hg Hn).
    rewrite construct_loaders_run. reflexivity.
  - reflexivity.
  - reflexivity.
  - unfold add_events. cbn [w_trace w_args].
    rewrite <- !app_assoc. rewrite skipn_app, skipn_all, Nat.sub_diag.
    cbn [batch_size num_workers train_sampler uratio distributed set_batch_size].
    rewrite Hd. reflexivity.
Qed.

Lemma distributed_loaders_keep_node_workers_witness :
  exists w',
    Py.bind (set_devices demo_env 2) (fun _ => construct_loaders demo_env)
      (world_of args_distributed []) = (Returned tt, w') /\
    batch_size (w_args w') = 4 /\
    num_workers (w_args w') = 4 /\
    firstn 2 (filter is_data_loader (skipn 0 (w_trace w')))
    = [GetDataLoader "train_lb" 4 (Some "RandomSampler") 4 (Some true);
       GetDataLoader "train_ulb" 4 (Some "RandomSampler") 8 (Some true)].
Proof.
  refine (distributed_loaders_keep_node_workers demo_env 2 0
            (world_of args_distributed []) _ _ _ _);
    [vm_compute; reflexivity .. | discriminate].
Defined.

End TrainFacts.

(* ===================================================================== *)
(** ** Further facts about vat.py *)
(* ===================================================================== *)

Module VATMore.

Import VAT VATSpec TensorFacts VATFacts.
Local Open Scope R_scope.

(** *** Softmax and entropy *)

Lemma exp_sum_shift (c : R) (x : list R) :
  rsum (map exp (map (Rplus c) x)) = exp c * rsum (map exp x).
Proof.
  induction x as [|a x IH]; simpl; [ring|].
  rewrite IH, exp_plus. ring.
Qed.

Lemma softmax_row_shift (c : R) (x : list R) :
  softmax_row (map (Rplus c) x) = softmax_row x.
Proof.
  destruct x as [|a x]; [reflexivity|].
  unfold softmax_row. rewrite exp_sum_shift, map_map.
  apply map_ext. intros xi. rewrite exp_plus.
  pose proof (exp_pos c). pose proof (exp_sum_pos (a :: x) ltac:(discriminate)).
  field. split; lra.
Qed.

Lemma log_softmax_row_shift (c : R) (x : list R) :
  log_softmax_row (map (Rplus c) x) = log_softmax_row x.
Proof.
  destruct x as [|a x]; [reflexivity|].
  unfold log_softmax_row. rewrite exp_sum_shift, map_map.
  apply map_ext. intros xi.
  pose proof (exp_pos c). pose proof (exp_sum_pos (a :: x) ltac:(discriminate)).
  rewrite ln_mult by assumption. rewrite ln_exp. ring.
Qed.

Lemma softmax_shift_rows (cs : list R) (x : matrix) :
  softmax (shift_rows cs x) = softmax x.
Proof.
  revert x. induction cs as [|c cs IH]; intros [|r x]; simpl; try reflexivity.
  now rewrite softmax_row_shift, IH.
Qed.

Lemma log_softmax_shift_rows (cs : list R) (x : matrix) :
  log_softmax (shift_rows cs x) = log_softmax x.
Proof.
  revert x. induction cs as [|c cs IH]; intros [|r x]; simpl; try reflexivity.
  now rewrite log_softmax_row_shift, IH.
Qed.

(** X1: [kl_div_with_logit] and [entropy_loss] see logits only through their
    softmax: adding a constant to all logits of an example, a different one
    per example and per argument, changes neither value. *)
Theorem losses_ignore_logit_shifts (cq cp : list R) (q_logit p_logit : matrix) :
  kl_div_with_logit (shift_rows cq q_logit) (shift_rows cp p_logit)
    = kl_div_with_logit q_logit p_logit /\
  entropy_loss (shift_rows cq q_logit) = entropy_loss q_logit.
Proof.
  unfold kl_div_with_logit, entropy_loss.
  now rewrite !softmax_shift_rows, !log_softmax_shift_rows.
Qed.

Lemma exp_le_sum (xi : R) (x : list R) : In xi x -> exp xi <= rsum (map exp x).
Proof.
  induction x as [|a x IH]; simpl; [tauto|].
  assert (H0 : 0 <= rsum (map exp x)).
  { clear. induction x as [|b x IH]; simpl; [lra|]. pose proof (exp_pos b). lra. }
  intros [->|Hin]; [lra|]. pose proof (exp_pos a). specialize (IH Hin). lra.
Qed.

Lemma plogp_terms_nonpos (a : R) (x : list R) :
  0 < a -> (forall xi, In xi x -> exp xi <= a) ->
  rsum (zip_with Rmult (map (fun xi => exp xi / a) x) (map (fun xi => xi - ln a) x)) <= 0.
Proof.
  intros Ha. induction x as [|b x IH]; intros Hle; simpl; [lra|].
  assert (Hb : exp b <= a) by (apply Hle; now left).
  assert (Hln : b <= ln a).
  { destruct (Rle_dec b (ln a)) as [H|H]; [exact H|]. exfalso.
    assert (Hlt : exp (ln a) < exp b) by (apply exp_increasing; lra).
    rewrite exp_ln in Hlt by exact Ha. lra. }
  assert (Hq : 0 <= exp b / a).
  { apply Rmult_le_pos; [left; apply exp_pos | left; now apply Rinv_0_lt_compat]. }
  specialize (IH (fun xi H => Hle xi (or_intror H))). nra.
Qed.

Lemma plogp_row_nonpos (x : list R) : plogp_row x <= 0.
Proof.
  unfold plogp_row. destruct x as [|a x]; [simpl; lra|].
  unfold softmax_row, log_softmax_row.
  apply plogp_terms_nonpos.
  - apply exp_sum_pos. discriminate.
  - intros xi Hin. now apply exp_le_sum.
Qed.

Lemma rsum_scaled (a : R) (x : list R) :
  rsum (map (fun xi => exp xi / a) x) = rsum (map exp x) / a.
Proof. induction x as [|b x IH]; simpl; [|rewrite IH]; unfold Rdiv; ring. Qed.

Lemma softmax_row_sums_to_one (x : list R) : x <> [] -> rsum (softmax_row x) = 1.
Proof.
  intros Hx. unfold softmax_row. rewrite rsum_scaled.
  pose proof (exp_sum_pos x Hx). field. lra.
Qed.

Lemma rsum_times_constant (c : R) (p : list R) :
  rsum (zip_with Rmult p (map (fun _ : R => c) p)) = c * rsum p.
Proof. induction p as [|a p IH]; simpl; [|rewrite IH]; ring. Qed.

Lemma exp_sum_zeros (x : list R) :
  rsum (map exp (map (fun _ : R => 0) x)) = INR (length x).
Proof.
  induction x as [|a x IH]; [reflexivity|].
  change (length (a :: x)) with (S (length x)). rewrite S_INR.
  simpl. rewrite IH, exp_0. ring.
Qed.

Lemma plogp_row_lower (x : list R) : x <> [] -> - ln (INR (length x)) <= plogp_row x.
Proof.
  intros Hx.
  pose proof (gibbs_row x (map (fun _ : R => 0) x) ltac:(now rewrite length_map)) as Hg.
  unfold log_softmax_row at 1 in Hg. rewrite exp_sum_zeros, map_map in Hg.
  unfold softmax_row in Hg at 1.
  assert (Hrw : rsum (zip_with Rmult (map (fun xi => exp xi / rsum (map exp x)) x)
                        (map (fun _ : R => 0 - ln (INR (length x))) x))
                = (0 - ln (INR (length x))) * rsum (softmax_row x)).
  { unfold softmax_row. generalize (rsum (map exp x)) as a.
    generalize (0 - ln (INR (length x))) as c. intros c a.
    clear. induction x as [|b x IH]; simpl; [|rewrite IH]; ring. }
  rewrite Hrw, softmax_row_sums_to_one in Hg by exact Hx.
  unfold plogp_row. lra.
Qed.

Lemma sum_dim1_plogp (x : matrix) :
  sum_dim1 (mul (softmax x) (log_softmax x)) = map plogp_row x.
Proof. induction x as [|r x IH]; simpl; [reflexivity|]. now rewrite <- IH. Qed.

Lemma mean_dim0_bounds (a b : R) (v : list R) :
  v <> [] -> Forall (fun t => a <= t <= b) v -> a <= mean_dim0 v <= b.
Proof.
  intros Hne Hall. unfold mean_dim0.
  assert (Hsum : INR (length v) * a <= rsum v <= INR (length v) * b).
  { clear Hne. induction Hall as [|t v Ht _ IH]; [simpl; lra|].
    change (length (t :: v)) with (S (length v)). rewrite S_INR. simpl. lra. }
  assert (Hpos : 0 < INR (length v)).
  { apply lt_0_INR. destruct v; [congruence | simpl; lia]. }
  split.
  - apply Rmult_le_reg_r with (r := INR (length v)); [exact Hpos|].
    unfold Rdiv. rewrite Rmult_assoc, Rinv_l by lra. lra.
  - apply Rmult_le_reg_r with (r := INR (length v)); [exact Hpos|].
    unfold Rdiv. rewrite Rmult_assoc, Rinv_l by lra. lra.
Qed.

(** X2: on a non-empty batch of logits with [K >= 1] classes each,
    [entropy_loss] lies between 0 and [ln K]. *)
Theorem entropy_loss_bounds (K : nat) (ul_y : matrix) :
  ul_y <> [] -> (1 <= K)%nat -> classes K ul_y ->
  0 <= entropy_loss ul_y <= ln (INR K).
Proof.
  intros Hne HK Hcl. unfold entropy_loss. rewrite sum_dim1_plogp.
  assert (Hb : - ln (INR K) <= mean_dim0 (map plogp_row ul_y) <= 0).
  { apply mean_dim0_bounds.
    - destruct ul_y; [congruence | discriminate].
    - apply Forall_map. eapply Forall_impl; [|exact Hcl].
      intros r Hr. simpl. split; [|apply plogp_row_nonpos].
      rewrite <- Hr. apply plogp_row_lower. destruct r; [simpl in Hr; lia | discriminate]. }
  lra.
Qed.

Lemma entropy_loss_bounds_witness :
  0 <= entropy_loss even_logits <= ln (INR 2).
Proof.
  apply (entropy_loss_bounds 2 even_logits).
  - discriminate.
  - lia.
  - repeat constructor.
Defined.

(** *** The normaliser and the size of the perturbation *)




Lemma concat_length_uniform (c : nat) (ls : list (list R)) :
  Forall (fun v => length v = c) ls -> length (concat ls) = (length ls * c)%nat.
Proof.
  induction 1 as [|v ls Hv _ IH]; simpl; [reflexivity|].
  rewrite length_app, IH, Hv. reflexivity.
Qed.

Lemma normalize_over_nonbatch_wf (d : tensor) : wf d -> wf (normalize_over_nonbatch d).
Proof.
  intros Hwf. unfold wf, normalize_over_nonbatch. simpl.
  rewrite concat_length_uniform with (c := example_size d).
  - rewrite length_map. unfold examples. rewrite chunks_length. now rewrite numel_batch.
  - apply Forall_map. unfold examples.
    eapply Forall_impl; [|apply chunks_sizes].
    + intros v Hv. now rewrite div_by_norm_length.
    + unfold wf in Hwf. now rewrite Hwf, numel_batch.
Qed.

(** X3: whatever its rank, a well-formed array comes back from
    [_l2_normalize] with the same shape and the same number of entries. *)
Theorem l2_normalize_keeps_layout (d : tensor) :
  wf d ->
  exists d', _l2_normalize d = Returned d' /\ shape d' = shape d /\ wf d'.
Proof.
  intros Hwf. exists (normalized d). split; [reflexivity|].
  unfold normalized, _l2_normalize.
  destruct (Nat.eqb (length (shape d)) 4);
    [split; [reflexivity | now apply normalize_over_nonbatch_wf]|].
  destruct (Nat.eqb (length (shape d)) 3);
    [split; [reflexivity | now apply normalize_over_nonbatch_wf]|].
  split; [reflexivity | exact Hwf].
Qed.

Lemma l2_normalize_keeps_layout_witness :
  exists d', _l2_normalize rank3_perturbation = Returned d' /\
             shape d' = shape rank3_perturbation /\ wf d'.
Proof. apply (l2_normalize_keeps_layout rank3_perturbation). reflexivity. Defined.




(** X5: with [num_iters <= 0] no round runs: [vat_loss] returns the divergence
    at the target plus [eps] times the normalised random draw, takes that one
    draw from the generator and leaves the gradient buffers as they were. *)
Theorem vat_loss_without_rounds
  (W G : Type) (C : capability W G) (ul_x : input) (ul_y : matrix) (xi eps : R)
  (num_iters : Z) (ul_x_embed : option tensor) (vat_embed : bool)
  (at_ : tensor -> input) (size : list nat) (s : vat W G) :
  perturbed vat_embed ul_x ul_x_embed = Returned at_ ->
  (if vat_embed then size_of_embed ul_x_embed else size_of ul_x) = Returned size ->
  (num_iters <= 0)%Z ->
  vat_loss C ul_x ul_y xi eps num_iters ul_x_embed vat_embed s
  = (Returned (kl_div_with_logit ul_y
                 (forward C (weights s) (bn_frozen s)
                    (at_ (scale eps (normalized (normal_ C (rng s) size)))))),
     set_rng (S (rng s)) s).
Proof.
  intros Hat Hsize Hn. unfold vat_loss.
  replace (Z.to_nat num_iters) with 0%nat by lia.
  unfold Py.bind at 1. unfold Py.lift at 1. rewrite Hsize.
  unfold draw_normal. run_monad. rewrite Hat. reflexivity.
Qed.

Lemma vat_loss_without_rounds_witness :
  vat_loss toy_capability (Dense rank3_perturbation) even_logits default_xi 6 0
    None false toy_state
  = (Returned (kl_div_with_logit even_logits
                 (forward toy_capability (weights toy_state) (bn_frozen toy_state)
                    (Dense (add rank3_perturbation
                              (scale 6 (normalized
                                 (normal_ toy_capability (rng toy_state)
                                    (shape rank3_perturbation)))))))),
     set_rng (S (rng toy_state)) toy_state).
Proof.
  apply (vat_loss_without_rounds R R toy_capability (Dense rank3_perturbation)
           even_logits default_xi 6 0 None false
           (fun d => Dense (add rank3_perturbation d))
           (shape rank3_perturbation) toy_state eq_refl eq_refl).
  lia.
Defined.

(** *** Inputs of the wrong kind *)

(** X6: [vat_loss] on an input that does not fit the mode.  Without
    [vat_embed] a tokenizer dict has no [size()]: [AttributeError], nothing
    done.  With [vat_embed] and no embedding: the same.  With [vat_embed], an
    embedding and a plain array as [ul_x], the failure comes in the first
    round, at [ul_x['attention_mask']], after the random draw. *)
Theorem vat_loss_rejects_mismatched_input
  (W G : Type) (C : capability W G) (ul_y : matrix) (xi eps : R) (num_iters : Z)
  (s : vat W G) :
  (forall (ul_x : input) (ul_x_embed : option tensor),
     accepts false ul_x = false ->
     vat_loss C ul_x ul_y xi eps num_iters ul_x_embed false s
     = (Raised AttributeError, s)) /\
  (forall ul_x : input,
     vat_loss C ul_x ul_y xi eps num_iters None true s
     = (Raised AttributeError, s)) /\
  (forall x e : tensor,
     (1 <= num_iters)%Z ->
     exists err,
       vat_loss C (Dense x) ul_y xi eps num_iters (Some e) true s
       = (Raised err, set_rng (S (rng s)) s)).
Proof.
  refine (conj _ (conj _ _)).
  - intros ul_x e Hacc. destruct ul_x; try discriminate Hacc; reflexivity.
  - intros ul_x. reflexivity.
  - intros x e Hn. unfold vat_loss.
    destruct (Z.to_nat num_iters) as [|n] eqn:En; [lia|]. eexists. reflexivity.
Qed.

Lemma vat_loss_rejects_mismatched_input_witness :
  exists err,
    vat_loss toy_capability (Dense rank3_perturbation) even_logits default_xi 6 1
      (Some rank3_perturbation) true toy_state
    = (Raised err, set_rng (S (rng toy_state)) toy_state).
Proof.
  apply (proj2 (proj2 (vat_loss_rejects_mismatched_input R R toy_capability
                         even_logits default_xi 6 1 toy_state))).
  lia.
Defined.

(** X7: [train_step] on an unlabeled batch that does not fit the mode raises
    out of [vat_loss], after [freeze_bn] and before [unfreeze_bn]: batch norm
    stays frozen, and neither the parameters nor their gradient buffers are
    touched. *)
Theorem train_step_mismatch_leaves_bn_frozen
  (W G : Type) (C : capability W G) (s : vat W G)
  (x_lb : input) (y_lb : list Z) (x_ulb_w : input) :
  accepts (vat_embed s) x_ulb_w = false ->
  exists (e : exn) (s' : vat W G),
    train_step C x_lb y_lb x_ulb_w s = (Raised e, s') /\
    (s' = set_bn_frozen true s \/ s' = set_rng (S (rng s)) (set_bn_frozen true s)) /\
    bn_frozen s' = true /\ weights s' = weights s /\ grads s' = grads s.
Proof.
  intros Hacc. unfold train_step, freeze_bn, unfreeze_bn.
  destruct (vat_embed s) eqn:Eve.
  - destruct x_ulb_w as [x| |]; try discriminate Hacc.
    exists TypeError, (set_rng (S (rng s)) (set_bn_frozen true s)).
    split; [|repeat split; auto].
    unfold Py.bind at 1. unfold Py.get at 1. rewrite Eve.
    unfold Py.bind at 1. unfold Py.bind at 1. unfold Py.modify at 1.
    unfold Py.bind at 1. unfold Py.get at 1.
    destruct (forward_embed C (weights (set_bn_frozen true s))
                (bn_frozen (set_bn_frozen true s)) (Dense x)) as [emb logits].
    reflexivity.
  - destruct x_ulb_w as [x| |]; try discriminate Hacc;
      (exists AttributeError, (set_bn_frozen true s);
       split; [|repeat split; auto];
       unfold Py.bind at 1; unfold Py.get at 1; rewrite Eve; reflexivity).
Qed.

Lemma train_step_mismatch_leaves_bn_frozen_witness :
  exists (e : exn) (s' : vat R R),
    train_step toy_capability (Dense rank3_perturbation) [0%Z]
      (Tokens rank3_perturbation rank3_perturbation) toy_state = (Raised e, s') /\
    (s' = set_bn_frozen true toy_state \/
     s' = set_rng (S (rng toy_state)) (set_bn_frozen true toy_state)) /\
    bn_frozen s' = true /\ weights s' = weights toy_state /\
    grads s' = grads toy_state.
Proof.
  apply (train_step_mismatch_leaves_bn_frozen R R toy_capability toy_state
           (Dense rank3_perturbation) [0%Z]
           (Tokens rank3_perturbation rank3_perturbation)).
  reflexivity.
Defined.

(** *** The warm-up coefficient and the objective *)

Lemma unsup_warmup_coef_zero_divisor (it : Z) (w : R) (N : Z) :
  w * IZR N = 0 -> unsup_warmup_coef it w N = Raised ZeroDivisionError.
Proof.
  intros H. unfold unsup_warmup_coef, truediv.
  destruct (Req_dec_T (w * IZR N) 0) as [_|Hne]; [reflexivity | contradiction].
Qed.

Lemma np_clip_range (x : R) : 0 <= np_clip x 0 1 <= 1.
Proof.
  unfold np_clip. split.
  - apply Rmin_glb; [apply Rmax_r | lra].
  - apply Rmin_r.
Qed.

Lemma np_clip_monotone (x y : R) : x <= y -> np_clip x 0 1 <= np_clip y 0 1.
Proof.
  intros H. unfold np_clip.
  apply Rle_min_compat_r. now apply Rle_max_compat_r.
Qed.

(** X8: the warm-up coefficient.  A zero divisor ([unsup_warm_up = 0] or
    [num_train_iter = 0]) raises [ZeroDivisionError]; otherwise the value lies
    in [[0, 1]]; for a positive divisor it never decreases as [it] grows; for
    a negative one (a negative warm-up share) it is 0 at every [it >= 0]. *)
Theorem unsup_warmup_coef_range_and_order :
  (forall (it : Z) (w : R) (N : Z),
     w * IZR N = 0 -> unsup_warmup_coef it w N = Raised ZeroDivisionError) /\
  (forall (it : Z) (w : R) (N : Z),
     w * IZR N <> 0 ->
     exists c, unsup_warmup_coef it w N = Returned c /\ 0 <= c <= 1) /\
  (forall (it1 it2 : Z) (w : R) (N : Z) (c1 c2 : R),
     0 < w * IZR N -> (it1 <= it2)%Z ->
     unsup_warmup_coef it1 w N = Returned c1 ->
     unsup_warmup_coef it2 w N = Returned c2 -> c1 <= c2) /\
  (forall (it : Z) (w : R) (N : Z),
     w * IZR N < 0 -> (0 <= it)%Z -> unsup_warmup_coef it w N = Returned 0).
Proof.
  refine (conj _ (conj _ (conj _ _))).
  - exact unsup_warmup_coef_zero_divisor.
  - intros it w N Hden. eexists. split; [now apply unsup_warmup_coef_defined|].
    apply np_clip_range.
  - intros it1 it2 w N c1 c2 Hden Hle H1 H2.
    rewrite unsup_warmup_coef_defined in H1, H2 by lra.
    injection H1 as <-. injection H2 as <-.
    apply np_clip_monotone. apply IZR_le in Hle.
    apply Rmult_le_compat_r; [|exact Hle].
    left. now apply Rinv_0_lt_compat.
  - intros it w N Hden Hit. rewrite unsup_warmup_coef_defined by lra.
    apply f_equal. unfold np_clip. apply IZR_le in Hit.
    assert (Hq : IZR it / (w * IZR N) <= 0).
    { unfold Rdiv. assert (Hinv : / (w * IZR N) < 0) by now apply Rinv_lt_0_compat.
      nra. }
    rewrite Rmax_right by exact Hq. apply Rmin_left. lra.
Qed.

Lemma unsup_warmup_coef_range_and_order_witness :
  unsup_warmup_coef 200 (- (4 / 10)) 1000 = Returned 0.
Proof.
  apply (proj2 (proj2 (proj2 unsup_warmup_coef_range_and_order))); [lra | lia].
Defined.

Lemma train_step_via_coef
  (W G : Type) (C : capability W G) (s : vat W G)
  (x_lb : input) (y_lb : list Z) (x_ulb_w : input) :
  accepts (vat_embed s) x_ulb_w = true ->
  exists (ul_y : matrix) (unsup_loss : R),
    let s1 := set_bn_frozen false (after_search C (set_bn_frozen true s)) in
    let sup_loss := ce_loss C (forward C (weights s) (bn_frozen s) x_lb) y_lb in
    let loss_entmin := entropy_loss ul_y in
    ul_y = (if vat_embed s
            then snd (forward_embed C (weights s) true x_ulb_w)
            else forward C (weights s) true x_ulb_w) /\
    train_step C x_lb y_lb x_ulb_w s
    = match unsup_warmup_coef (it s) (unsup_warm_up s) (num_train_iter s) with
      | Returned unsup_warmup =>
          (Returned
             [("train/sup_loss"%string, sup_loss);
              ("train/unsup_loss"%string, unsup_loss);
              ("train/loss_entmin"%string, loss_entmin);
              ("train/total_loss"%string,
               sup_loss + lambda_u s * unsup_loss * unsup_warmup
               + lambda_ent s * loss_entmin)],
           parameter_update C
             (sup_loss + lambda_u s * unsup_loss * unsup_warmup
              + lambda_ent s * loss_entmin) s1)
      | Raised e => (Raised e, s1)
      end.
Proof.
  intros Hacc.
  destruct (accepted_probe (vat_embed s) x_ulb_w
              (fst (forward_embed C (weights s) true x_ulb_w)) Hacc)
    as (size & at_ & Hsize & Hat).
  simpl in Hsize, Hat.
  set (ul_y := if vat_embed s
               then snd (forward_embed C (weights s) true x_ulb_w)
               else forward C (weights s) true x_ulb_w).
  destruct (vat_loss_spec C x_ulb_w ul_y default_xi _ (vat_embed s) at_ Hat
              (vat_eps s) default_num_iters size (set_bn_frozen true s) Hsize)
    as [d_last Hv]; [unfold default_num_iters; lia|].
  eexists ul_y, _. cbv zeta. split; [reflexivity|].
  unfold train_step, freeze_bn, unfreeze_bn.
  unfold Py.bind at 1. unfold Py.get at 1.
  unfold Py.bind at 1.
  subst ul_y. destruct (vat_embed s) eqn:Eve.
  - unfold Py.bind at 1. unfold Py.bind at 1. unfold Py.modify at 1.
    unfold Py.bind at 1. unfold Py.get at 1.
    change (weights (set_bn_frozen true s)) with (weights s).
    change (bn_frozen (set_bn_frozen true s)) with true.
    change (vat_eps (set_bn_frozen true s)) with (vat_eps s).
    destruct (forward_embed C (weights s) true x_ulb_w) as [emb logits] eqn:Efe.
    simpl in Hv. unfold Py.bind at 1. rewrite Hv.
    run_monad.
    destruct (unsup_warmup_coef (it s) (unsup_warm_up s) (num_train_iter s));
      reflexivity.
  - unfold Py.bind at 1. unfold Py.bind at 1. unfold Py.modify at 1.
    unfold Py.bind at 1. unfold Py.get at 1.
    change (weights (set_bn_frozen true s)) with (weights s).
    change (bn_frozen (set_bn_frozen true s)) with true.
    change (vat_eps (set_bn_frozen true s)) with (vat_eps s).
    unfold Py.bind at 1. rewrite Hv.
    run_monad.
    destruct (unsup_warmup_coef (it s) (unsup_warm_up s) (num_train_iter s));
      reflexivity.
Qed.

(** X9: with a zero warm-up divisor ([unsup_warm_up = 0], say)
    [train_step] raises [ZeroDivisionError] once the adversarial search is
    over: [parameter_update] is not reached, and the state left behind is the
    initial one with one random draw taken, the gradient buffers cleared and
    batch norm unfrozen. *)
Theorem train_step_zero_warmup_divisor
  (W G : Type) (C : capability W G) (s : vat W G)
  (x_lb : input) (y_lb : list Z) (x_ulb_w : input) :
  accepts (vat_embed s) x_ulb_w = true ->
  unsup_warm_up s * IZR (num_train_iter s) = 0 ->
  train_step C x_lb y_lb x_ulb_w s
  = (Raised ZeroDivisionError,
     set_bn_frozen false (after_search C (set_bn_frozen true s))).
Proof.
  intros Hacc Hden.
  destruct (train_step_via_coef W G C s x_lb y_lb x_ulb_w Hacc)
    as (ul_y & adv & _ & Hrun).
  rewrite Hrun, unsup_warmup_coef_zero_divisor by exact Hden. reflexivity.
Qed.

Lemma train_step_zero_warmup_divisor_witness :
  train_step toy_capability (Dense rank3_perturbation) [0%Z]
    (Dense rank3_perturbation) no_warmup_state
  = (Raised ZeroDivisionError,
     set_bn_frozen false
       (after_search toy_capability (set_bn_frozen true no_warmup_state))).
Proof.
  apply (train_step_zero_warmup_divisor R R toy_capability no_warmup_state
           (Dense rank3_perturbation) [0%Z] (Dense rank3_perturbation)).
  - reflexivity.
  - simpl. lra.
Defined.



End VATMore.

(* ===================================================================== *)
(** ** Further facts about train.py *)
(* ===================================================================== *)

Module TrainMore.

Import Train TrainSpec TrainFacts.
Local Open Scope string_scope.
Local Open Scope Z_scope.

(** *** What a computation may emit *)

Section Emits.

Variable p : event -> bool.

Lemma emits_ret {A} (a : A) : emits p (Py.ret a).
Proof. intros w. exists []. simpl. now rewrite app_nil_r. Qed.

Lemma emits_raise {A} (e : exn) : emits p (@Py.raise world A e).
Proof. intros w. exists []. simpl. now rewrite app_nil_r. Qed.

Lemma emits_lift {A} (o : outcome A) : emits p (@Py.lift world A o).
Proof. intros w. exists []. simpl. now rewrite app_nil_r. Qed.

Lemma emits_get_args : emits p get_args.
Proof. intros w. exists []. simpl. now rewrite app_nil_r. Qed.

Lemma emits_get_fs : emits p get_fs.
Proof. intros w. exists []. simpl. now rewrite app_nil_r. Qed.

Lemma emits_get_model : emits p get_model.
Proof.
  intros w. exists []. unfold get_model.
  destruct (w_model w); simpl; now rewrite app_nil_r.
Qed.

Lemma emits_modify_args (f : args -> args) : emits p (modify_args f).
Proof. intros w. exists []. simpl. now rewrite app_nil_r. Qed.

Lemma emits_set_model (m : ssl_algorithm) : emits p (set_model m).
Proof. intros w. exists []. simpl. now rewrite app_nil_r. Qed.

Lemma emits_emit (e : event) : p e = true -> emits p (emit e).
Proof. intros He w. exists [e]. simpl. now rewrite He. Qed.

Lemma emits_bind {A B} (m : M world A) (k : A -> M world B) :
  emits p m -> (forall a, emits p (k a)) -> emits p (Py.bind m k).
Proof.
  intros Hm Hk w. unfold Py.bind. specialize (Hm w).
  destruct (m w) as [[a|e] w1]; simpl in Hm; [|exact Hm].
  destruct Hm as [t [Ht Hp]]. destruct (Hk a w1) as [t' [Ht' Hp']].
  exists (t ++ t')%list. rewrite Ht', Ht, <- app_assoc. split; [reflexivity|].
  rewrite forallb_app, Hp, Hp'. reflexivity.
Qed.

Lemma emits_try_except {A} (body handler : M world A) :
  emits p body -> emits p handler -> emits p (Py.try_except body handler).
Proof.
  intros Hb Hh w. unfold Py.try_except. specialize (Hb w).
  destruct (body w) as [[a|e] w1]; simpl in Hb; [exact Hb|].
  destruct Hb as [t [Ht Hp]]. destruct (Hh w1) as [t' [Ht' Hp']].
  exists (t ++ t')%list. rewrite Ht', Ht, <- app_assoc. split; [reflexivity|].
  rewrite forallb_app, Hp, Hp'. reflexivity.
Qed.

Lemma emits_when (c : bool) (m : M world unit) : emits p m -> emits p (Py.when c m).
Proof. intros Hm. destruct c; simpl; [exact Hm | apply emits_ret]. Qed.

End Emits.

Ltac emits_step :=
  match goal with
  | |- emits _ (Py.bind _ _) => apply emits_bind; [|intros]
  | |- emits _ (Py.when _ _) => apply emits_when
  | |- emits _ (Py.try_except _ _) => apply emits_try_except
  | |- emits _ (emit _) => apply emits_emit; reflexivity
  | |- emits _ (if ?c then _ else _) => destruct c
  | |- emits _ (match ?x with _ => _ end) => destruct x
  | |- emits _ (let '(_, _) := ?x in _) => destruct x
  | |- emits _ _ =>
      first [ apply emits_ret | apply emits_raise | apply emits_lift
            | apply emits_get_args | apply emits_get_fs | apply emits_get_model
            | apply emits_modify_args | apply emits_set_model | solve [auto] ]
  end.

Ltac emits_all := repeat emits_step.

Section NoRmtree.

Variable E : env.

Let quiet_events (e : event) : bool := negb (is_rmtree e).

Lemma no_rmtree_log_results (r : list (string * string)) :
  emits quiet_events (log_results r).
Proof.
  induction r as [|[key item] r IH]; simpl; [apply emits_ret|].
  apply emits_bind; [apply emits_emit; reflexivity | intros; exact IH].
Qed.

Lemma no_rmtree_main_worker (g : gpu_arg) (n : Z) :
  emits quiet_events (main_worker E g n).
Proof.
  pose proof no_rmtree_log_results.
  unfold main_worker, setup_distributed, set_logger, construct_dataset_and_algorithm,
    set_devices, construct_loaders, resume_checkpoint, run_training, call_load_model.
  emits_all.
Qed.

Lemma no_rmtree_after_save_path_check :
  emits quiet_events (Py.bind (check_resume_args E) (fun _ => launch E)).
Proof.
  pose proof no_rmtree_main_worker.
  unfold check_resume_args, launch. emits_all.
Qed.

End NoRmtree.

(** *** [main]: what it deletes and what it refuses *)

Lemma check_iteration_budget_frame (w : world) :
  exists r, check_iteration_budget w = (r, w).
Proof.
  unfold check_iteration_budget, py_mod, Py.bind, get_args, Py.lift.
  destruct (epoch (w_args w) =? 0); [eexists; reflexivity|].
  destruct (num_train_iter (w_args w) mod epoch (w_args w) =? 0);
    eexists; reflexivity.
Qed.

Lemma prepare_save_path_keeps (w : world) :
  path_exists (save_path_of (w_args w)) (w_fs w) && overwrite (w_args w)
    && Bool.eqb (resume (w_args w)) false = false ->
  prepare_save_path w
  = (if path_exists (save_path_of (w_args w)) (w_fs w) && negb (overwrite (w_args w))
     then Raised (Exception ("already existing model: " ++ save_path_of (w_args w)))
     else Returned tt, w).
Proof.
  intros Hc. unfold prepare_save_path, save_path_of in *.
  unfold Py.bind at 1. unfold get_args at 1.
  unfold Py.bind at 1. unfold get_fs at 1.
  unfold Py.bind at 1. rewrite Hc. simpl.
  unfold Py.bind, get_fs.
  destruct (path_exists _ (w_fs w) && negb (overwrite (w_args w))); reflexivity.
Qed.

(** X11: [main] calls [shutil.rmtree] on nothing but the save path, and only
    when that path exists, [overwrite] is on and [resume] is off; a run that
    resumes never deletes. *)
Theorem main_removes_only_the_save_path (E : env) (w : world) :
  exists t,
    w_trace (snd (main E w)) = (w_trace w ++ t)%list /\
    forall p, In (Rmtree p) t ->
      p = save_path_of (w_args w) /\ path_exists p (w_fs w) = true /\
      overwrite (w_args w) = true /\ resume (w_args w) = false.
Proof.
  unfold main. unfold Py.bind at 1.
  destruct (check_iteration_budget_frame w) as [[[]|e] Hc]; rewrite Hc.
  2:{ exists []. simpl. rewrite app_nil_r. split; [reflexivity | tauto]. }
  destruct (path_exists (save_path_of (w_args w)) (w_fs w) && overwrite (w_args w)
            && Bool.eqb (resume (w_args w)) false) eqn:Hcond.
  - apply andb_prop in Hcond as [Hcond Hres]. apply andb_prop in Hcond as [Hex Hov].
    apply Bool.eqb_prop in Hres.
    unfold Py.bind at 1. rewrite prepare_save_path_deletes by assumption.
    destruct (no_rmtree_after_save_path_check E
                (after_rmtree (save_path_of (w_args w)) w)) as [t [Ht Hp]].
    exists (Rmtree (save_path_of (w_args w)) :: t). split.
    + rewrite Ht. simpl. now rewrite <- app_assoc.
    + intros q [Hq|Hq].
      * injection Hq as <-. auto.
      * rewrite forallb_forall in Hp. apply Hp in Hq. discriminate Hq.
  - unfold Py.bind at 1. rewrite prepare_save_path_keeps by exact Hcond.
    destruct (path_exists (save_path_of (w_args w)) (w_fs w)
              && negb (overwrite (w_args w))).
    + exists []. simpl. rewrite app_nil_r. split; [reflexivity | tauto].
    + destruct (no_rmtree_after_save_path_check E w) as [t [Ht Hp]].
      exists t. split; [exact Ht|].
      intros q Hq. rewrite forallb_forall in Hp. apply Hp in Hq. discriminate Hq.
Qed.

(** X12: [main] with [resume] set checks the load path before anything is
    launched.  Without a [load_path] it raises 'Resume of training requires
    --load_path in the args'; with a load path that is the save path and
    [overwrite] off it raises too; in both cases the world is untouched. *)
Theorem main_validates_resume_args (E : env) (w : world) :
  epoch (w_args w) <> 0 ->
  num_train_iter (w_args w) mod epoch (w_args w) = 0 ->
  resume (w_args w) = true ->
  path_exists (save_path_of (w_args w)) (w_fs w) && negb (overwrite (w_args w)) = false ->
  (load_path (w_args w) = None ->
   main E w
   = (Raised (Exception "Resume of training requires --load_path in the args"), w)) /\
  (forall lp,
     load_path (w_args w) = Some lp ->
     abspath E (save_path_of (w_args w)) = abspath E lp ->
     overwrite (w_args w) = false ->
     exists msg, main E w = (Raised (Exception msg), w)).
Proof.
  intros He Hm Hres Hok.
  assert (Hpre : forall k : unit -> M world unit,
            Py.bind check_iteration_budget
              (fun _ => Py.bind prepare_save_path k) w = k tt w).
  { intros k. unfold Py.bind at 1. rewrite check_iteration_budget_ok by assumption.
    unfold Py.bind at 1. rewrite prepare_save_path_keeps.
    - rewrite Hok. reflexivity.
    - rewrite Hres. simpl. apply andb_false_r. }
  split.
  - intros Hlp. unfold main. rewrite Hpre.
    unfold check_resume_args, Py.bind, get_args. rewrite Hres, Hlp. reflexivity.
  - intros lp Hlp Habs Hov. unfold main. rewrite Hpre.
    unfold check_resume_args, Py.bind, get_args, save_path_of in *.
    rewrite Hres, Hlp, Habs, Hov, String.eqb_refl. eexists. reflexivity.
Qed.

Lemma main_validates_resume_args_witness :
  main demo_env (world_of (with_load_path None args_resume) [])
  = (Raised (Exception "Resume of training requires --load_path in the args"),
     world_of (with_load_path None args_resume) []).
Proof.
  refine (proj1 (main_validates_resume_args demo_env
                   (world_of (with_load_path None args_resume) []) _ _ _ _) _);
    first [discriminate | vm_compute; reflexivity].
Defined.

(** *** [main_worker]: seeds, devices, CUDA *)

(** X13: [main_worker] asserts that a seed is given: with [args.seed = None]
    it raises [AssertionError] having done nothing but assign [args.gpu]. *)
Theorem main_worker_requires_seed (E : env) (g : gpu_arg) (n : Z) (w : world) :
  seed (w_args w) = None ->
  main_worker E g n w
  = (Raised (AssertionError ""),
     mk_world (set_gpu g (w_args w)) (w_fs w) (w_model w) (w_trace w)).
Proof.
  intros Hs. unfold main_worker, setup_distributed.
  unfold Py.bind, modify_args, Py.modify, get_args. simpl. rewrite Hs. reflexivity.
Qed.

Lemma main_worker_requires_seed_witness :
  main_worker demo_env GpuNone 2 (world_of (with_seed None args_resume) [])
  = (Raised (AssertionError ""),
     mk_world (set_gpu GpuNone (with_seed None args_resume)) [] None []).
Proof.
  apply (main_worker_requires_seed demo_env GpuNone 2
           (world_of (with_seed None args_resume) [])).
  reflexivity.
Defined.

(** X14: with no device on the node ([ngpus_per_node = 0]) a worker that is
    not distributed fails in [args.rank % ngpus_per_node] with
    [ZeroDivisionError], right after seeding: it never gets to the check that
    raises 'ONLY GPU TRAINING IS SUPPORTED'. *)
Theorem main_worker_without_devices (E : env) (g : gpu_arg) (w : world) (s : Z) :
  seed (w_args w) = Some s -> distributed (w_args w) = false ->
  main_worker E g 0 w
  = (Raised ZeroDivisionError,
     mk_world (set_gpu g (w_args w)) (w_fs w) (w_model w)
       (w_trace w ++ [SetSeeds s])%list).
Proof.
  intros Hs Hd. unfold main_worker, setup_distributed, set_logger, py_mod.
  unfold Py.bind, modify_args, Py.modify, get_args, emit, Py.when, Py.ret, Py.lift.
  simpl. rewrite Hs, Hd. reflexivity.
Qed.

Lemma main_worker_without_devices_witness :
  main_worker demo_env GpuNone 0 (world_of args_100_7 [])
  = (Raised ZeroDivisionError,
     mk_world (set_gpu GpuNone args_100_7) [] None ([] ++ [SetSeeds 1])%list).
Proof.
  apply (main_worker_without_devices demo_env GpuNone (world_of args_100_7 []) 1);
    reflexivity.
Defined.

Section NoTraining.

Variable E : env.

Let preparing (e : event) : bool := negb (is_training_event e).

Lemma setup_distributed_prepares (g : gpu_arg) (n : Z) :
  emits preparing (setup_distributed E g n).
Proof. unfold setup_distributed. emits_all. Qed.

Lemma set_logger_prepares (n : Z) : emits preparing (set_logger n).
Proof. unfold set_logger. emits_all. Qed.

Lemma construct_dataset_and_algorithm_prepares :
  emits preparing (construct_dataset_and_algorithm E).
Proof. unfold construct_dataset_and_algorithm. emits_all. Qed.

Lemma set_devices_without_cuda (n : Z) (w : world) :
  cuda_is_available E = false ->
  set_devices E n w
  = (Raised (Exception "ONLY GPU TRAINING IS SUPPORTED"), add_events [CudaIsAvailable] w).
Proof.
  intros Hc. unfold set_devices, Py.bind, get_args, emit, Py.modify. simpl.
  rewrite Hc. reflexivity.
Qed.

Lemma main_worker_without_cuda_general (g : gpu_arg) (n : Z) (w : world) :
  cuda_is_available E = false ->
  exists e t,
    fst (main_worker E g n w) = Raised e /\
    w_trace (snd (main_worker E g n w)) = (w_trace w ++ t)%list /\
    forallb preparing t = true.
Proof.
  intros Hc. unfold main_worker, Py.bind.
  destruct (setup_distributed_prepares g n w) as [t1 [Ht1 Hp1]].
  destruct (setup_distributed E g n w) as [[[]|e1] w1]; simpl in Ht1;
    [|exists e1, t1; auto].
  destruct (set_logger_prepares n w1) as [t2 [Ht2 Hp2]].
  destruct (set_logger n w1) as [[[]|e2] w2]; simpl in Ht2.
  2:{ exists e2, (t1 ++ t2)%list. simpl. rewrite Ht2, Ht1, <- app_assoc, forallb_app, Hp1, Hp2.
      auto. }
  destruct (construct_dataset_and_algorithm_prepares w2) as [t3 [Ht3 Hp3]].
  destruct (construct_dataset_and_algorithm E w2) as [[[]|e3] w3]; simpl in Ht3.
  2:{ exists e3, (t1 ++ t2 ++ t3)%list. simpl.
      rewrite Ht3, Ht2, Ht1, <- !app_assoc, !forallb_app, Hp1, Hp2, Hp3. auto. }
  rewrite set_devices_without_cuda by exact Hc.
  exists (Exception "ONLY GPU TRAINING IS SUPPORTED"), (t1 ++ t2 ++ t3 ++ [CudaIsAvailable])%list.
  simpl. rewrite Ht3, Ht2, Ht1, <- !app_assoc, !forallb_app, Hp1, Hp2, Hp3. auto.
Qed.

End NoTraining.

(** X15: when [torch.cuda.is_available()] is false [main_worker] always
    raises, and nothing it has called by then builds a data loader, reads or
    writes a checkpoint, or trains; a worker that is seeded, not distributed
    and on a node with devices gets as far as the CUDA check, after the data
    set and the algorithm were built, and raises 'ONLY GPU TRAINING IS
    SUPPORTED'. *)
Theorem main_worker_without_cuda (E : env) (g : gpu_arg) (n : Z) (w : world) :
  cuda_is_available E = false ->
  (exists e t,
     fst (main_worker E g n w) = Raised e /\
     w_trace (snd (main_worker E g n w)) = (w_trace w ++ t)%list /\
     forallb (fun ev => negb (is_training_event ev)) t = true) /\
  (forall s, seed (w_args w) = Some s -> distributed (w_args w) = false -> n <> 0 ->
     fst (main_worker E g n w) = Raised (Exception "ONLY GPU TRAINING IS SUPPORTED") /\
     In GetDataset (w_trace (snd (main_worker E g n w))) /\
     In GetAlgorithm (w_trace (snd (main_worker E g n w)))).
Proof.
  intros Hc. split; [now apply main_worker_without_cuda_general|].
  intros s Hs Hd Hn. apply Z.eqb_neq in Hn.
  unfold main_worker, setup_distributed, set_logger, construct_dataset_and_algorithm,
    set_devices, py_mod.
  unfold Py.bind, modify_args, Py.modify, get_args, emit, Py.when, Py.ret, Py.lift,
    set_model.
  simpl. rewrite Hs, Hd, Hn. simpl.
  destruct (rank (w_args w) mod n =? 0); simpl;
    rewrite ?Hd, ?andb_false_r; simpl; rewrite ?Hd, ?andb_false_r; simpl;
    rewrite Hc; simpl;
    (split; [reflexivity|]); split; rewrite !in_app_iff; simpl; tauto.
Qed.

Lemma main_worker_without_cuda_witness :
  exists e t,
    fst (main_worker no_cuda_env GpuNone 2 (world_of args_resume [])) = Raised e /\
    w_trace (snd (main_worker no_cuda_env GpuNone 2 (world_of args_resume [])))
      = ([] ++ t)%list /\
    forallb (fun ev => negb (is_training_event ev)) t = true.
Proof.
  apply (proj1 (main_worker_without_cuda no_cuda_env GpuNone 2
                  (world_of args_resume []) eq_refl)).
Defined.

(** *** Ranks, barriers and gating *)




Ltac launch_done :=
  split; [reflexivity|];
  cbn [w_args w_trace distributed world_size set_world_size set_distributed];
  rewrite <- ?app_assoc; cbn [app];
  split; [reflexivity|]; split; [reflexivity|]; split; reflexivity.

(** X17: with [multiprocessing_distributed] set, [main] trains nothing in
    the parent process: after its warnings it counts the devices and calls
    [mp.spawn] with one process per device, handing over [args] in which
    [distributed] is true and [world_size] has been multiplied by the number
    of devices per node. *)
Theorem launch_spawns_one_worker_per_device (E : env) (w : world) :
  multiprocessing_distributed (w_args w) = true ->
  (dist_url (w_args w) =? "env://")%string && (world_size (w_args w) =? -1) = false ->
  exists w' warnings,
    launch E w = (Returned tt, w') /\
    w_trace w'
    = (w_trace w ++ warnings
       ++ [CudaDeviceCount;
           MpSpawn (cuda_device_count E) (cuda_device_count E) (w_args w')])%list /\
    forallb is_warn warnings = true /\
    distributed (w_args w') = true /\
    world_size (w_args w') = cuda_device_count E * world_size (w_args w).
Proof.
  intros Hm He. unfold launch.
  unfold modify_args, emit, get_args, Py.when, Py.lift.
  unfold Py.bind, Py.modify, Py.ret.
  destruct (seed (w_args w)) as [sd|] eqn:Hs;
    destruct (gpu (w_args w)) as [i| |] eqn:Hg;
    do 4 (cbn [w_args w_fs w_model w_trace gpu set_gpu gpu_is_none negb dist_url
               world_size multiprocessing_distributed set_distributed set_world_size
               distributed];
          rewrite ?Hg, ?He, ?Hm, ?orb_true_r).
  - eexists _, [_; _]. launch_done.
  - eexists _, [_]. launch_done.
  - eexists _, [_]. launch_done.
  - eexists _, [_]. launch_done.
  - eexists _, []. launch_done.
  - eexists _, []. launch_done.
Qed.

Lemma launch_spawns_one_worker_per_device_witness :
  exists w' warnings,
    launch demo_env (world_of (with_multiprocessing_distributed true args_distributed) [])
      = (Returned tt, w') /\
    w_trace w'
    = ([] ++ warnings ++ [CudaDeviceCount; MpSpawn 2 2 (w_args w')])%list /\
    forallb is_warn warnings = true /\
    distributed (w_args w') = true /\
    world_size (w_args w') = 2 * 2.
Proof.
  refine (launch_spawns_one_worker_per_device demo_env
            (world_of (with_multiprocessing_distributed true args_distributed) []) _ _);
    vm_compute; reflexivity.
Defined.

#[local] Arguments str : simpl never.

Lemma construct_dataset_and_algorithm_run (E : env) (w : world) :
  let a := set_lb_dest_len (train_lb_len E)
             (set_ulb_dest_len (match train_ulb_len E with Some n => n | None => 0 end)
                (w_args w)) in
  construct_dataset_and_algorithm E w
  = (Returned tt,
     mk_world a (w_fs w) (Some (get_algorithm E a))
       (w_trace w
        ++ (if negb (rank (w_args w) =? 0) && distributed (w_args w)
            then [Barrier] else [])
        ++ [GetDataset;
            LogInfo ("unlabeled data number: " ++ str (ulb_dest_len a)
                     ++ ", labeled data number " ++ str (lb_dest_len a))]
        ++ (if (rank (w_args w) =? 0) && distributed (w_args w) then [Barrier] else [])
        ++ [NetBuilder; GetAlgorithm;
            LogInfo ("Number of Trainable Params: " ++ str (count_parameters E));
            GetOptimizer;
            GetScheduler (num_train_iter (w_args w)) (num_warmup_iter (w_args w));
            SetOptimizer])%list).
Proof.
  intros a. unfold construct_dataset_and_algorithm.
  unfold modify_args, emit, get_args, Py.when, Py.lift, set_model.
  unfold Py.bind, Py.modify, Py.ret.
  destruct (rank (w_args w) =? 0) eqn:Hr; destruct (distributed (w_args w)) eqn:Hd;
    simpl; rewrite ?Hr, ?Hd; simpl; rewrite <- ?app_assoc; reflexivity.
Qed.

(** X18: the data-set barriers.  [main_worker]'s data-set block always
    returns; a process that is not distributed calls no barrier; a distributed
    process calls exactly one: before [get_dataset] if its rank is not 0,
    after it if its rank is 0 (so rank 0 builds the data set while the others
    wait). *)
Theorem dataset_barrier_protocol (E : env) (w : world) :
  exists w' before after,
    construct_dataset_and_algorithm E w = (Returned tt, w') /\
    w_trace w' = (w_trace w ++ before ++ GetDataset :: after)%list /\
    before = (if negb (rank (w_args w) =? 0) && distributed (w_args w)
              then [Barrier] else []) /\
    filter is_barrier after
    = (if (rank (w_args w) =? 0) && distributed (w_args w) then [Barrier] else []) /\
    length (filter is_barrier (before ++ GetDataset :: after))
    = (if distributed (w_args w) then 1 else 0)%nat.
Proof.
  eexists _, _, _. split; [apply construct_dataset_and_algorithm_run|].
  cbn [w_trace]. split; [reflexivity|]. split; [reflexivity|].
  destruct (rank (w_args w) =? 0), (distributed (w_args w)); split; reflexivity.
Qed.

Lemma set_logger_run (n : Z) (w : world) :
  n <> 0 ->
  set_logger n w
  = (Returned tt,
     add_events
       ((if rank (w_args w) mod n =? 0
         then [NewTBLog (save_path_of (w_args w)) (use_tensorboard (w_args w))]
         else [])
        ++ [GetLogger (save_name (w_args w)) (save_path_of (w_args w))
              (if rank (w_args w) mod n =? 0 then "INFO" else "WARNING");
            LogInfo ("Use GPU: " ++ str_gpu (gpu (w_args w)) ++ " for training")]) w).
Proof.
  intros Hn. apply Z.eqb_neq in Hn. unfold set_logger, py_mod, add_events.
  unfold emit, get_args, Py.lift. unfold Py.bind, Py.modify, Py.ret.
  rewrite Hn. destruct (rank (w_args w) mod n =? 0); simpl;
    rewrite <- ?app_assoc; reflexivity.
Qed.

Lemma existsb_save_log_results (r : list (string * string)) :
  existsb is_save_model
    (map (fun kv => LogInfo ("Model result - " ++ fst kv ++ " : " ++ snd kv)) r) = false.
Proof. induction r as [|kv r IH]; simpl; [reflexivity | exact IH]. Qed.

Lemma run_training_run (E : env) (n : Z) (w : world) (m : ssl_algorithm) :
  w_model w = Some m -> n <> 0 ->
  run_training E n w
  = (Returned tt,
     mk_world (w_args w) (w_fs w) (Some (snd (train E m)))
       (w_trace w
        ++ (if alg_has_warmup m then [LogInfo "Warmup stage"; AlgWarmup] else [])
        ++ [LogInfo "Model training"; AlgTrain (alg_it m)]
        ++ map (fun kv => LogInfo ("Model result - " ++ fst kv ++ " : " ++ snd kv))
             (fst (train E m))
        ++ (if alg_has_finetune (snd (train E m))
            then [LogInfo "Finetune stage"; AlgFinetune] else [])
        ++ (if negb (multiprocessing_distributed (w_args w))
               || (rank (w_args w) mod n =? 0)
            then [SaveModel "latest_model.pth" (save_path_of (w_args w))] else [])
        ++ [LoggingWarning ("GPU " ++ str (rank (w_args w)) ++ " training is FINISHED")])%list).
Proof.
  intros Hm Hn. unfold run_training.
  unfold Py.bind at 1. unfold get_model at 1. rewrite Hm.
  set (pre := (if alg_has_warmup m then [LogInfo "Warmup stage"; AlgWarmup] else [])).
  assert (Hpre : Py.when (alg_has_warmup m)
                   (Py.bind (emit (LogInfo "Warmup stage")) (fun _ => emit AlgWarmup)) w
                 = (Returned tt, add_events pre w)).
  { unfold pre, add_events. destruct (alg_has_warmup m); simpl.
    - unfold Py.bind, emit, Py.modify. simpl. now rewrite <- app_assoc.
    - unfold Py.ret. rewrite app_nil_r. now destruct w. }
  unfold Py.bind at 1. rewrite Hpre.
  unfold Py.bind at 1. unfold emit at 1, Py.modify at 1.
  unfold Py.bind at 1. unfold get_model at 1. simpl w_model. rewrite Hm.
  unfold Py.bind at 1. unfold emit at 1, Py.modify at 1.
  destruct (train E m) as [result m'] eqn:Htrain. cbn [fst snd].
  unfold Py.bind at 1. unfold set_model at 1, Py.modify at 1.
  unfold Py.bind at 1. rewrite log_results_run.
  apply Z.eqb_neq in Hn.
  destruct (alg_has_finetune m'), (multiprocessing_distributed (w_args w)) eqn:Hmpd;
    unfold Py.bind, Py.when, get_args, emit, Py.modify, Py.ret, Py.lift, py_mod, add_events;
    simpl; rewrite ?Hmpd; simpl; rewrite ?Hn; simpl;
    try destruct (rank (w_args w) mod n =? 0);
    repeat (first [rewrite <- app_assoc | progress simpl]);
    rewrite ?map_app; repeat (first [rewrite <- app_assoc | progress simpl]);
    reflexivity.
Qed.

(** X19: rank gating.  On a node with devices, the logger block creates the
    tensorboard log, and logs at level INFO rather than WARNING, exactly when
    the process's rank is a multiple of [ngpus_per_node]; the training block
    always returns on a built algorithm and saves 'latest_model.pth' exactly
    when the run is not [multiprocessing_distributed] or the rank is such a
    multiple. *)
Theorem node_leader_logs_and_saves (E : env) (n : Z) (w : world) :
  n <> 0 ->
  (exists w' t,
     set_logger n w = (Returned tt, w') /\
     w_trace w' = (w_trace w ++ t)%list /\
     existsb is_new_tblog t = (rank (w_args w) mod n =? 0) /\
     In (GetLogger (save_name (w_args w)) (save_path_of (w_args w))
           (if rank (w_args w) mod n =? 0 then "INFO" else "WARNING")) t) /\
  (forall m, w_model w = Some m ->
     exists w' t,
       run_training E n w = (Returned tt, w') /\
       w_trace w' = (w_trace w ++ t)%list /\
       existsb is_save_model t
       = negb (multiprocessing_distributed (w_args w)) || (rank (w_args w) mod n =? 0)).
Proof.
  intros Hn. split.
  - eexists _, _. split; [exact (set_logger_run n w Hn)|].
    split; [reflexivity|].
    destruct (rank (w_args w) mod n =? 0); simpl; auto.
  - intros m Hm. eexists _, _. split; [exact (run_training_run E n w m Hm Hn)|].
    cbn [w_trace]. split; [reflexivity|].
    rewrite !existsb_app, existsb_save_log_results.
    destruct (alg_has_warmup m), (alg_has_finetune (snd (train E m))),
      (negb (multiprocessing_distributed (w_args w)) || (rank (w_args w) mod n =? 0));
      reflexivity.
Qed.

Lemma node_leader_logs_and_saves_witness :
  exists w' t,
    set_logger 2 (world_of (set_rank 1 args_distributed) []) = (Returned tt, w') /\
    w_trace w' = ([] ++ t)%list /\
    existsb is_new_tblog t = false /\
    In (GetLogger "fixmatch" "./saved_models/fixmatch" "WARNING") t.
Proof.
  refine (proj1 (node_leader_logs_and_saves demo_env 2
                   (world_of (set_rank 1 args_distributed) []) _)).
  discriminate.
Defined.

(** *** The resume block and the batch size *)

(** X20: the resume block when nothing is loaded.  If [resume] is off, or it
    is on and the load path does not exist, the block calls no checkpoint
    reader, leaves [args] (and with it [args.resume]) as they are and logs
    'Resume load path ... does not exist', also in a run that never asked to
    resume.  If [resume] is on and [load_path] is [None], [os.path.exists]
    raises [TypeError]. *)
Theorem resume_checkpoint_without_load (E : env) (w : world) :
  (resume (w_args w) = false ->
   resume_checkpoint E w
   = (Returned tt,
      add_events [LogInfo ("Resume load path " ++ str_opt (load_path (w_args w))
                           ++ " does not exist")] w)) /\
  (forall p, resume (w_args w) = true -> load_path (w_args w) = Some p ->
     path_exists p (w_fs w) = false ->
     resume_checkpoint E w
     = (Returned tt,
        add_events [LogInfo ("Resume load path " ++ p ++ " does not exist")] w)) /\
  (resume (w_args w) = true -> load_path (w_args w) = None ->
   resume_checkpoint E w = (Raised TypeError, w)).
Proof.
  unfold resume_checkpoint, add_events.
  unfold emit, get_args, get_fs. unfold Py.bind, Py.modify, Py.ret, Py.raise.
  refine (conj _ (conj _ _)).
  - intros Hr. rewrite Hr. reflexivity.
  - intros p Hr Hp Hex. rewrite Hr, Hp, Hex. reflexivity.
  - intros Hr Hp. rewrite Hr, Hp. reflexivity.
Qed.

Lemma resume_checkpoint_without_load_witness :
  resume_checkpoint demo_env (world_of args_100_7 [])
  = (Returned tt,
     add_events [LogInfo "Resume load path None does not exist"]
       (world_of args_100_7 [])).
Proof.
  apply (proj1 (resume_checkpoint_without_load demo_env (world_of args_100_7 []))).
  reflexivity.
Defined.

Lemma resume_checkpoint_loaded
  (E : env) (w : world) (p : string) (m m' : ssl_algorithm) :
  resume (w_args w) = true -> load_path (w_args w) = Some p ->
  path_exists p (w_fs w) = true ->
  w_model w = Some m -> load_model E p m = (Returned tt, m') ->
  resume_checkpoint E w
  = (Returned tt,
     mk_world (w_args w) (w_fs w) (Some m') (w_trace w ++ [LoadModel p])%list).
Proof.
  intros Hres Hlp Hex Hm Hload. unfold resume_checkpoint.
  unfold Py.bind at 1. unfold get_args at 1.
  unfold Py.bind at 1. unfold get_fs at 1.
  rewrite Hres, Hlp. unfold Py.bind at 1. unfold Py.ret at 1. rewrite Hex.
  unfold Py.try_except, call_load_model.
  unfold Py.bind, emit, Py.modify, get_model, set_model, Py.lift, modify_args. simpl.
  rewrite Hm, Hload. reflexivity.
Qed.

(** X21: once [main_worker] has reached the resume block with resume
    requested, an existing load path and a reader that returns, the reader is
    called once, nothing is logged about it, [args.resume] stays on, and
    training is entered at the iteration counter the reader installed. *)
Theorem successful_resume_continues_from_checkpoint
  (E : env) (g : gpu_arg) (n : Z) (w0 w : world)
  (p : string) (m m' : ssl_algorithm) :
  n <> 0 ->
  worker_prefix E g n w0 = (Returned tt, w) ->
  resume (w_args w) = true -> load_path (w_args w) = Some p ->
  path_exists p (w_fs w) = true ->
  w_model w = Some m -> load_model E p m = (Returned tt, m') ->
  exists w_end post,
    main_worker E g n w0 = (Returned tt, w_end) /\
    resume (w_args w_end) = true /\
    w_trace w_end
    = (w_trace w ++ [LoadModel p]
       ++ (if alg_has_warmup m' then [LogInfo "Warmup stage"; AlgWarmup] else [])
       ++ [LogInfo "Model training"; AlgTrain (alg_it m')] ++ post)%list.
Proof.
  intros Hn Hprefix Hres Hlp Hex Hm Hload.
  pose proof (resume_checkpoint_loaded E w p m m' Hres Hlp Hex Hm Hload) as Hr.
  set (w1 := mk_world (w_args w) (w_fs w) (Some m') (w_trace w ++ [LoadModel p])%list)
    in Hr.
  destruct (run_training_returns E n w1 m' eq_refl Hn) as (w_end & post & Hrun & Ha & Ht).
  exists w_end, post. split; [|split].
  - rewrite main_worker_split. unfold Py.bind at 1. rewrite Hprefix.
    unfold Py.bind at 1. rewrite Hr. exact Hrun.
  - rewrite Ha. exact Hres.
  - rewrite Ht. unfold w1. simpl. now rewrite <- app_assoc.
Qed.

Lemma successful_resume_continues_from_checkpoint_witness :
  exists w_end post,
    main_worker loading_env GpuNone 2 (world_of args_resume ["./ckpt/latest_model.pth"])
    = (Returned tt, w_end) /\
    resume (w_args w_end) = true /\
    w_trace w_end
    = (w_trace (snd (worker_prefix loading_env GpuNone 2
                       (world_of args_resume ["./ckpt/latest_model.pth"])))
       ++ [LoadModel "./ckpt/latest_model.pth"]
       ++ []
       ++ [LogInfo "Model training"; AlgTrain 500] ++ post)%list.
Proof.
  refine (successful_resume_continues_from_checkpoint loading_env GpuNone 2
            (world_of args_resume ["./ckpt/latest_model.pth"])
            (snd (worker_prefix loading_env GpuNone 2
                    (world_of args_resume ["./ckpt/latest_model.pth"])))
            "./ckpt/latest_model.pth"
            (mk_ssl_algorithm 0 false false) (mk_ssl_algorithm 500 false false)
            _ _ _ _ _ _ _);
    [discriminate | vm_compute; reflexivity ..].
Defined.



End TrainMore.

(* ===================================================================== *)
(** ** Facts about lighting/config.py *)
(* ===================================================================== *)

Module ConfigFacts.

Import Config ConfigSpec.
Local Open Scope string_scope.

Lemma lookup_setattr_same (k : string) (v : value) (ns : namespace) :
  lookup k (setattr k v ns) = Some v.
Proof.
  induction ns as [|[k' v'] ns IH]; simpl.
  - now rewrite String.eqb_refl.
  - destruct (k' =? k)%string eqn:Hk; simpl.
    + now rewrite String.eqb_refl.
    + now rewrite Hk.
Qed.

Lemma lookup_setattr_other (k k' : string) (v : value) (ns : namespace) :
  k <> k' -> lookup k' (setattr k v ns) = lookup k' ns.
Proof.
  intros Hne. induction ns as [|[k0 v0] ns IH]; simpl.
  - apply String.eqb_neq in Hne. now rewrite Hne.
  - destruct (k0 =? k)%string eqn:Hk; simpl.
    + apply String.eqb_eq in Hk. subst k0.
      apply String.eqb_neq in Hne. now rewrite Hne.
    + destruct (k0 =? k')%string; [reflexivity | exact IH].
Qed.

(** X23: [get_config] for an algorithm the registry does not know raises
    [KeyError] with the algorithm's name; the name looked up is the one in
    force after the config has been written over the defaults. *)
Theorem get_config_unknown_algorithm (E : env) (config : namespace) (alg : string) :
  getattr (over_write_args_from_dict E (parse_nothing lighting_parser) config)
    "algorithm" = Returned (VStr alg) ->
  name2alg E alg = None ->
  get_config E config = Raised (KeyError alg).
Proof.
  intros Halg Hreg. unfold get_config. rewrite Halg. simpl. now rewrite Hreg.
Qed.

Lemma get_config_unknown_algorithm_witness :
  get_config sample_env [("algorithm", VStr "fixmatch")] = Raised (KeyError "fixmatch").
Proof.
  apply (get_config_unknown_algorithm sample_env [("algorithm", VStr "fixmatch")]
           "fixmatch"); reflexivity.
Defined.

(** X24: when the algorithm is registered, its options fit the parser and
    the algorithm and the data set are named by strings, [get_config] returns a namespace that is the second overwrite of the
    defaults except for two attributes: [dist_url] is always
    'tcp://127.0.0.1:' followed by the port, whatever the config says, and
    [save_name], if it was [None], is the algorithm's and the data set's names
    joined by '_', so that it is never [None] on return. *)
Theorem get_config_fills_save_name_and_dist_url
  (E : env) (config : namespace) (alg a d : string)
  (arguments : list SSL_Argument) (parser' : parser) (save_name : value) :
  let args1 := over_write_args_from_dict E (parse_nothing lighting_parser) config in
  let args2 := over_write_args_from_dict E (parse_nothing parser') config in
  getattr args1 "algorithm" = Returned (VStr alg) ->
  name2alg E alg = Some arguments ->
  add_arguments arguments lighting_parser = Returned parser' ->
  getattr args2 "save_name" = Returned save_name ->
  getattr args2 "algorithm" = Returned (VStr a) ->
  getattr args2 "dataset" = Returned (VStr d) ->
  exists args,
    get_config E config = Returned args /\
    getattr args "dist_url"
      = Returned (VStr ("tcp://127.0.0.1:" ++ Train.str (get_port E))) /\
    getattr args "save_name"
      = Returned (match save_name with
                  | VNone => VStr (a ++ "_" ++ d)
                  | _ => save_name
                  end) /\
    getattr args "save_name" <> Returned VNone /\
    (forall k, k <> "save_name" -> k <> "dist_url" -> getattr args k = getattr args2 k).
Proof.
  intros args1 args2 Halg Hreg Hadd Hsn Ha Hd.
  unfold get_config. fold args1. rewrite Halg. simpl. rewrite Hreg. simpl.
  rewrite Hadd. simpl. fold args2. rewrite Hsn. simpl.
  assert (Hgo : forall k v ns, k <> "dist_url" ->
            getattr (setattr "dist_url" v ns) k = getattr ns k).
  { intros k v ns Hk. unfold getattr. rewrite lookup_setattr_other; auto. }
  destruct save_name; simpl; rewrite ?Ha; simpl; rewrite ?Hd; simpl;
    eexists; (split; [reflexivity|]); unfold getattr at 1;
    rewrite lookup_setattr_same; (split; [reflexivity|]).
  - assert (Hnew : forall v,
              getattr (setattr "save_name" v args2) "save_name" = Returned v).
    { intros v. unfold getattr. now rewrite lookup_setattr_same. }
    rewrite Hgo by discriminate. rewrite Hnew.
    split; [reflexivity|]. split; [discriminate|].
    intros k Hk1 Hk2. rewrite Hgo by auto. unfold getattr.
    now rewrite lookup_setattr_other by auto.
  - rewrite Hgo by discriminate. rewrite Hsn.
    split; [reflexivity|]. split; [discriminate|]. intros k _ Hk. now apply Hgo.
  - rewrite Hgo by discriminate. rewrite Hsn.
    split; [reflexivity|]. split; [discriminate|]. intros k _ Hk. now apply Hgo.
  - rewrite Hgo by discriminate. rewrite Hsn.
    split; [reflexivity|]. split; [discriminate|]. intros k _ Hk. now apply Hgo.
  - rewrite Hgo by discriminate. rewrite Hsn.
    split; [reflexivity|]. split; [discriminate|]. intros k _ Hk. now apply Hgo.
Qed.

Lemma get_config_fills_save_name_and_dist_url_witness :
  exists args,
    get_config sample_env [("algorithm", VStr "vat"); ("dataset", VStr "svhn")]
      = Returned args /\
    getattr args "dist_url" = Returned (VStr "tcp://127.0.0.1:29500") /\
    getattr args "save_name" = Returned (VStr "vat_svhn") /\
    getattr args "save_name" <> Returned VNone /\
    (forall k, k <> "save_name" -> k <> "dist_url" ->
       getattr args k
       = getattr (over_write_args_from_dict sample_env
                    (parse_nothing (lighting_parser ++ map option_of vat_get_argument)%list)
                    [("algorithm", VStr "vat"); ("dataset", VStr "svhn")]) k).
Proof.
  refine (get_config_fills_save_name_and_dist_url sample_env
            [("algorithm", VStr "vat"); ("dataset", VStr "svhn")]
            "vat" "vat" "svhn" vat_get_argument
            (lighting_parser ++ map option_of vat_get_argument)%list VNone
            _ _ _ _ _ _); vm_compute; reflexivity.
Defined.

Lemma add_arguments_appends (l : list SSL_Argument) :
  forall p p', add_arguments l p = Returned p' -> p' = (p ++ map option_of l)%list.
Proof.
  induction l as [|a l IH]; simpl; intros p p' H.
  - inversion H. now rewrite app_nil_r.
  - unfold add_argument in H.
    destruct (existsb (uses_flag (arg_name a)) p); [discriminate|]. simpl in H.
    apply IH in H. subst p'. now rewrite <- app_assoc.
Qed.

Lemma set_default_keeps (ns : namespace) (o : option_spec) (k : string) (v : value) :
  lookup k ns = Some v -> lookup k (set_default ns o) = Some v.
Proof.
  intros H. unfold set_default. destruct (lookup (dest o) ns) eqn:Hd; [exact H|].
  rewrite lookup_setattr_other; [exact H|]. intros Heq. congruence.
Qed.

Lemma set_defaults_keep (q : parser) :
  forall ns k v, lookup k ns = Some v -> lookup k (fold_left set_default q ns) = Some v.
Proof.
  induction q as [|o q IH]; simpl; intros ns k v H; [exact H|].
  apply IH. now apply set_default_keeps.
Qed.

Lemma set_defaults_cover (q : parser) :
  forall ns o, In o q -> exists v, lookup (dest o) (fold_left set_default q ns) = Some v.
Proof.
  induction q as [|o' q IH]; simpl; intros ns o Hin; [contradiction|].
  destruct Hin as [->|Hin]; [|now apply IH].
  assert (H : exists v, lookup (dest o) (set_default ns o) = Some v).
  { unfold set_default. destruct (lookup (dest o) ns) eqn:Hd.
    - rewrite Hd. now eexists.
    - rewrite lookup_setattr_same. now eexists. }
  destruct H as [v Hv]. exists v. now apply set_defaults_keep.
Qed.

(** X25: the options of an algorithm never change what [get_config] has
    already declared: when they are all accepted, the parser is the old one
    followed by one option per argument, every attribute of the old defaults
    keeps its value, also when an algorithm option is stored under the same
    attribute, and each algorithm option has an attribute. *)
Theorem algorithm_options_keep_base_defaults
  (arguments : list SSL_Argument) (p p' : parser) :
  add_arguments arguments p = Returned p' ->
  p' = (p ++ map option_of arguments)%list /\
  (forall k v, getattr (parse_nothing p) k = Returned v ->
               getattr (parse_nothing p') k = Returned v) /\
  (forall a, In a arguments ->
             getattr (parse_nothing p') (dest (option_of a)) <> Raised AttributeError).
Proof.
  intros H. apply add_arguments_appends in H. subst p'.
  split; [reflexivity|].
  assert (Happ : parse_nothing (p ++ map option_of arguments)%list
                 = fold_left set_default (map option_of arguments) (parse_nothing p)).
  { unfold parse_nothing. apply fold_left_app. }
  rewrite Happ.
  split.
  - intros k v Hk. unfold getattr in *.
    destruct (lookup k (parse_nothing p)) as [v'|] eqn:Hl; [|discriminate].
    inversion Hk; subst v'.
    now rewrite (set_defaults_keep _ _ _ _ Hl).
  - intros a Hin. unfold getattr.
    destruct (set_defaults_cover (map option_of arguments) (parse_nothing p)
                (option_of a) (in_map option_of _ _ Hin)) as [v Hv].
    rewrite Hv. discriminate.
Qed.

Lemma algorithm_options_keep_base_defaults_witness :
  (lighting_parser ++ map option_of vat_get_argument)%list
  = (lighting_parser ++ map option_of vat_get_argument)%list /\
  (forall k v, getattr (parse_nothing lighting_parser) k = Returned v ->
               getattr (parse_nothing (lighting_parser ++ map option_of vat_get_argument)%list) k
               = Returned v) /\
  (forall a, In a vat_get_argument ->
             getattr (parse_nothing (lighting_parser ++ map option_of vat_get_argument)%list)
               (dest (option_of a)) <> Raised AttributeError).
Proof.
  refine (algorithm_options_keep_base_defaults vat_get_argument lighting_parser
            (lighting_parser ++ map option_of vat_get_argument)%list _).
  vm_compute; reflexivity.
Defined.

Lemma add_arguments_clash (l : list SSL_Argument) :
  forall p a, In a l -> existsb (uses_flag (arg_name a)) p = true ->
              exists msg, add_arguments l p = Raised (Exception msg).
Proof.
  induction l as [|x l IH]; simpl; intros p a Hin Hp; [contradiction|].
  unfold add_argument.
  destruct (existsb (uses_flag (arg_name x)) p) eqn:Hx; simpl; [now eexists|].
  destruct Hin as [->|Hin]; [congruence|].
  apply (IH _ a Hin). rewrite existsb_app, Hp. reflexivity.
Qed.

(** X26: an algorithm that declares an option under a flag [get_config] has
    already declared makes [get_config] fail with argparse's error, whatever
    else is configured: no namespace is returned. *)
Theorem get_config_rejects_clashing_option
  (E : env) (config : namespace) (alg : string)
  (arguments : list SSL_Argument) (a : SSL_Argument) :
  getattr (over_write_args_from_dict E (parse_nothing lighting_parser) config)
    "algorithm" = Returned (VStr alg) ->
  name2alg E alg = Some arguments ->
  In a arguments ->
  existsb (uses_flag (arg_name a)) lighting_parser = true ->
  exists msg, get_config E config = Raised (Exception msg).
Proof.
  intros Halg Hreg Hin Hflag. unfold get_config. rewrite Halg. simpl.
  rewrite Hreg. simpl.
  destruct (add_arguments_clash arguments lighting_parser a Hin Hflag) as [msg Hmsg].
  exists msg. now rewrite Hmsg.
Qed.

Lemma get_config_rejects_clashing_option_witness :
  exists msg, get_config clashing_env [] = Raised (Exception msg).
Proof.
  refine (get_config_rejects_clashing_option clashing_env [] "remixmatch"
            [mk_SSL_Argument "--p_cutoff" (VFloat (QArith_base.Qmake 95 100));
             mk_SSL_Argument "--seed" (VInt 0)]
            (mk_SSL_Argument "--seed" (VInt 0)) _ _ _ _);
    [reflexivity | reflexivity | right; left; reflexivity | vm_compute; reflexivity].
Defined.

(** X27: VAT's command-line options fit [get_config]'s parser, and left
    unconfigured they give [unsup_warm_up], [vat_eps] and [vat_embed] the
    values [VAT.init] has as keyword defaults. *)
Theorem vat_options_agree_with_init :
  exists p,
    add_arguments vat_get_argument lighting_parser = Returned p /\
    forall k v, lookup k vat_init_defaults = Some v ->
                getattr (parse_nothing p) k = Returned v.
Proof.
  eexists. split; [vm_compute; reflexivity|].
  intros k v H. unfold vat_init_defaults, lookup in H.
  destruct ("unsup_warm_up" =? k)%string eqn:H1.
  { apply String.eqb_eq in H1. subst k. vm_compute in H. inversion H. reflexivity. }
  destruct ("vat_eps" =? k)%string eqn:H2.
  { apply String.eqb_eq in H2. subst k. vm_compute in H. inversion H. reflexivity. }
  destruct ("vat_embed" =? k)%string eqn:H3; [|discriminate].
  apply String.eqb_eq in H3. subst k. vm_compute in H. inversion H. reflexivity.
Qed.

End ConfigFacts.
